(** * SPM local package-file backend: path mapping and file operations

    A shallow embedding of [salt/spm/pkgfiles/local.py].  Python strings are
    Rocq strings, dictionaries are finite maps keyed by strings, and the
    functions that touch the logger, the file system or an archive handle
    run in a small state-and-exception monad over an explicit [World]. *)

From Stdlib Require Import String Ascii ZArith List Bool Lia.
From stdpp Require Import base option gmap strings list fin_maps.
Import ListNotations.

Local Open Scope string_scope.

(** ** Python string primitives used by the module *)

Module Py.

(** [s.startswith(p)] *)
Fixpoint startswith (s p : string) {struct p} : bool :=
  match p with
  | EmptyString => true
  | String a p' =>
      match s with
      | EmptyString => false
      | String b s' => Ascii.eqb a b && startswith s' p'
      end
  end.

(** [s[n:]] for [0 <= n] *)
Fixpoint slice_from (n : nat) (s : string) : string :=
  match n, s with
  | O, _ => s
  | S n', String _ s' => slice_from n' s'
  | S _, EmptyString => EmptyString
  end.

(** [s.endswith(suf)] *)
Definition endswith (s suf : string) : bool :=
  (String.length suf <=? String.length s)%nat
  && String.eqb (slice_from (String.length s - String.length suf) s) suf.

(** [s.replace(old, new, 1)]: only the leftmost occurrence is replaced;
    an empty [old] matches at position 0. *)
Fixpoint replace_first (old new s : string) : string :=
  if startswith s old then new +:+ slice_from (String.length old) s
  else match s with
       | EmptyString => EmptyString
       | String c s' => String c (replace_first old new s')
       end.

(** the greedy run [/+] or [/*] of a regular expression, consumed *)
Fixpoint skip_slashes (s : string) : string :=
  match s with
  | String "/"%char s' => skip_slashes s'
  | _ => s
  end.

(** [re.sub(r"^_pillar/+", "", s)]: the pattern is anchored at the start
    of the string, so at most one match is replaced. *)
Definition re_sub_pillar (s : string) : string :=
  if startswith s "_pillar/" then skip_slashes (slice_from 8 s) else s.

(** [str(x)] for a value that is a string or [None] *)
Definition str (x : option string) : string :=
  match x with Some s => s | None => "None" end.

(** truth value of a value that is a string or [None] *)
Definition truthy (x : option string) : bool :=
  match x with
  | Some (String _ _) => true
  | _ => false
  end.

(** [x or y] where [x] is a string or [None] and [y] a string *)
Definition or_else (x : option string) (y : string) : string :=
  match x with
  | Some (String c s) => String c s
  | _ => y
  end.

(** [sep.join((a, b))] *)
Definition join2 (sep a b : string) : string := a +:+ sep +:+ b.

End Py.

(** ** Exceptions, the world, and the monad *)

Definition ENOENT : Z := 2.
Definition EIO : Z := 5.
Definition EACCES : Z := 13.
Definition EEXIST : Z := 17.
Definition EISDIR : Z := 21.

(** An [OSError] instance: [err.errno] is [None] when the exception was built
    from a message only. *)
Record oserror := OSErr { errno : option Z; strerror : string }.

Inductive exn :=
| KeyError (key : string)
| OSError (err : oserror).

Inductive node :=
| File (data : list Byte.byte)
| Dir.

Inductive level := DEBUG | WARNING | ERROR.

(** An archive member ([tarfile.TarInfo]): the fields the module reads. *)
Record Member := mkMember { name : string; isdir : bool }.

(** What the functions can observe and change: the file system as a map
    from full paths to nodes, the system-call failures the environment
    imposes on individual paths, the records handed to the logger (oldest
    first), and the calls received by archive handles (oldest first). *)
Record World := mkWorld {
  nodes : gmap string node;
  faults : gmap string oserror;
  logged : list (level * string);
  extracted : list (string * Member * string)
}.

Definition M (A : Type) : Type := World -> World * (exn + A).

#[global] Instance M_ret : MRet M := fun A (a : A) w => (w, inr a).

#[global] Instance M_bind : MBind M := fun A B (k : A -> M B) (c : M A) w =>
  match c w with
  | (w', inr a) => k a w'
  | (w', inl e) => (w', inl e)
  end.

Definition raise {A} (e : exn) : M A := fun w => (w, inl e).

(** [try: c except OSError as err: h err]; other exceptions pass through. *)
Definition try_except_OSError {A} (c : M A) (h : oserror -> M A) : M A :=
  fun w => match c w with
           | (w', inl (OSError err)) => h err w'
           | r => r
           end.

(** [d[k]] on a dictionary *)
Definition getitem {V} (d : gmap string V) (k : string) : M V :=
  match d !! k with
  | Some v => mret v
  | None => raise (KeyError k)
  end.

(** [log.<level>(msg)] *)
Definition emit (l : level) (msg : string) (w : World) : World :=
  mkWorld (nodes w) (faults w) (logged w ++ [(l, msg)]) (extracted w).

Definition log (l : level) (msg : string) : M unit :=
  fun w => (emit l msg w, inr tt).

(** [os.path.exists(path)] and [os.path.isdir(path)] *)
Definition os_path_exists (path : string) : M bool :=
  fun w => (w, inr (match nodes w !! path with Some _ => true | None => false end)).

Definition os_path_isdir (path : string) : M bool :=
  fun w => (w, inr (match nodes w !! path with Some Dir => true | _ => false end)).

Definition set_nodes (f : gmap string node -> gmap string node) (w : World) : World :=
  mkWorld (f (nodes w)) (faults w) (logged w) (extracted w).

(** [os.makedirs(path)] *)
Definition os_makedirs (path : string) : M unit :=
  fun w => match faults w !! path with
           | Some e => (w, inl (OSError e))
           | None =>
               match nodes w !! path with
               | Some _ => (w, inl (OSError (OSErr (Some EEXIST) "File exists")))
               | None => (set_nodes (insert path Dir) w, inr tt)
               end
           end.

(** [os.remove(path)] *)
Definition os_remove (path : string) : M unit :=
  fun w => match faults w !! path with
           | Some e => (w, inl (OSError e))
           | None =>
               match nodes w !! path with
               | None => (w, inl (OSError (OSErr (Some ENOENT) "No such file or directory")))
               | Some Dir => (w, inl (OSError (OSErr (Some EISDIR) "Is a directory")))
               | Some (File _) => (set_nodes (delete path) w, inr tt)
               end
           end.

(** [with fopen(path, "rb") as f: f.read()], the whole content *)
Definition read_file (path : string) : M (list Byte.byte) :=
  fun w => match faults w !! path with
           | Some e => (w, inl (OSError e))
           | None =>
               match nodes w !! path with
               | None => (w, inl (OSError (OSErr (Some ENOENT) "No such file or directory")))
               | Some Dir => (w, inl (OSError (OSErr (Some EISDIR) "Is a directory")))
               | Some (File data) => (w, inr data)
               end
           end.

(** [formula_tar.extract(member, path)]: the call is recorded. *)
Definition tar_extract (formula_tar : string) (member : Member) (path : string) : M unit :=
  fun w => (mkWorld (nodes w) (faults w) (logged w)
                    (extracted w ++ [(formula_tar, member, path)]), inr tt).

(** ** The module [salt.spm.pkgfiles.local] *)

(** The host configuration [__opts__]: the string-valued settings by key
    (a key that is not set is absent) and the [force] flag. *)
Record Opts := mkOpts {
  settings : gmap string string;
  force : option bool
}.

Definition os_path_sep : string := "/".

(** the one-character string holding a double quote *)
Definition dquote : string := String (Ascii.ascii_of_nat 34) EmptyString.

(** the message of [map_path]'s [log.error] call *)
Definition node_type_not_set : string :=
  "Configuration value " +:+ dquote +:+ "spm_node_type" +:+ dquote +:+ " is not set".

Section Local.

(** [salt.syspaths.CONFIG_DIR] and the injected [__opts__] *)
Variable CONFIG_DIR : string.
Variable opts : Opts.

(** [for dir_ in dirs: if not os.path.exists(dir_): os.makedirs(dir_)] *)
Fixpoint ensure_dirs (dirs : list string) : M unit :=
  match dirs with
  | [] => mret tt
  | dir_ :: rest =>
      present ← os_path_exists dir_;
      (if negb present then os_makedirs dir_ else mret tt);;
      ensure_dirs rest
  end.

Definition init : M (gmap string string) :=
  formula_path ← getitem (settings opts) "formula_path";
  pillar_path ← getitem (settings opts) "pillar_path";
  reactor_path ← getitem (settings opts) "reactor_path";
  spm_module_path ← getitem (settings opts) "spm_module_path";
  ensure_dirs [formula_path; pillar_path; reactor_path; spm_module_path];;
  mret (<["formula_path" := formula_path]>
        (<["pillar_path" := pillar_path]>
         (<["reactor_path" := reactor_path]>
          (<["spm_module_path" := spm_module_path]> ∅)))).

(** [if conn is None: conn = init()] *)
Definition conn_or_init (conn : option (gmap string string)) : M (gmap string string) :=
  match conn with
  | None => init
  | Some c => mret c
  end.

(** [parent_dir or "{}/".format(formula.get("top_level_dir", formula.get("name", "")))] *)
Definition expected_prefix (formula : gmap string string) (parent_dir : option string) : string :=
  Py.or_else parent_dir
    (default (default "" (formula !! "name")) (formula !! "top_level_dir") +:+ "/").

Definition map_path (path : string) (formula : gmap string string)
    (parent_dir : option string) (conn : option (gmap string string))
  : M (option string * option string) :=
  conn ← conn_or_init conn;
  let _parent_dir := expected_prefix formula parent_dir in
  if negb (Py.startswith path _parent_dir) then mret (None, None)
  else
    let trimmed_path := Py.replace_first _parent_dir "" path in
    let file_path := trimmed_path in
    base_path ← getitem conn "formula_path";
    if String.eqb trimmed_path "FORMULA" then
      mret (None, None)
    else if Py.startswith trimmed_path "_pillar/" then
      base_path ← getitem conn "pillar_path";
      mret (Some base_path, Some (Py.re_sub_pillar trimmed_path))
    else if Py.startswith trimmed_path "_" then
      let file_path := Py.slice_from 1 trimmed_path in
      let node_type := Py.str (settings opts !! "spm_node_type") in
      if negb (String.eqb node_type "master" || String.eqb node_type "minion") then
        log ERROR node_type_not_set;;
        mret (None, None)
      else
        base_path ← getitem conn "spm_module_path";
        mret (Some base_path, Some file_path)
    else if String.eqb trimmed_path "pillar.example" then
      base_path ← getitem conn "pillar_path";
      formula_name ← getitem formula "name";
      mret (Some base_path, Some (formula_name +:+ ".sls.orig"))
    else
      formula_name ← getitem formula "name";
      if Py.endswith formula_name "-conf" then
        mret (Some CONFIG_DIR, Some file_path)
      else
        formula_name ← getitem formula "name";
        if Py.endswith formula_name "-reactor" then
          base_path ← getitem conn "reactor_path";
          mret (Some base_path, Some file_path)
        else
          mret (Some base_path, Some file_path).

(** [errno.ENOENT == err.errno] *)
Definition is_ENOENT (err : oserror) : bool :=
  match errno err with
  | Some e => Z.eqb ENOENT e
  | None => false
  end.

(** the body of the [for member in pkg_files] loop of [check_existing],
    with the list [existing_files] built so far *)
Fixpoint check_existing_loop (package : string) (pkg_files : list Member)
    (formula_def : gmap string string) (conn : option (gmap string string))
    (existing_files : list string) : M (list string) :=
  match pkg_files with
  | [] => mret existing_files
  | member :: rest =>
      if isdir member then
        check_existing_loop package rest formula_def conn existing_files
      else
        log DEBUG ("Checking if " +:+ package +:+ ":" +:+ name member
                   +:+ " is already installed ...");;
        '(base_path, file_path) ← map_path (name member) formula_def None conn;
        if negb (Py.truthy base_path) || negb (Py.truthy file_path) then
          log WARNING (name member +:+ " not in top level directory");;
          check_existing_loop package rest formula_def conn existing_files
        else
          let new_path := Py.join2 os_path_sep (Py.str base_path) (Py.str file_path) in
          present ← os_path_exists new_path;
          if (present : bool) then
            let existing_files := (existing_files ++ [new_path])%list in
            force_ ← match force opts with
                     | Some b => mret b
                     | None => raise (KeyError "force")
                     end;
            (if negb force_ then
               log ERROR (new_path +:+ " already exists, not installing")
             else mret tt);;
            check_existing_loop package rest formula_def conn existing_files
          else
            check_existing_loop package rest formula_def conn existing_files
  end.

Definition check_existing (package : string) (pkg_files : list Member)
    (formula_def : gmap string string) (conn : option (gmap string string))
  : M (list string) :=
  check_existing_loop package pkg_files formula_def conn [].

(** [install_file] returns [False] or the base path, and leaves the
    member it was given with a possibly rewritten [name]. *)
Inductive installed :=
| NotInstalled
| InstalledTo (base_path : string).

Definition install_file (package : string) (formula_tar : string) (member : Member)
    (formula_def : gmap string string) (conn : option (gmap string string))
  : M (installed * Member) :=
  if String.eqb (name member) package then mret (NotInstalled, member)
  else
    '(base_path, file_path) ← map_path (name member) formula_def None conn;
    if negb (Py.truthy base_path) || negb (Py.truthy file_path) then
      log WARNING (name member +:+ " not in top level directory, not installing");;
      mret (NotInstalled, member)
    else
      let base_path := Py.str base_path in
      let file_path := Py.str file_path in
      let new_path := Py.join2 os_path_sep base_path file_path in
      let member := mkMember file_path (isdir member) in
      log DEBUG ("Installing package file " +:+ name member +:+ " to " +:+ new_path);;
      tar_extract formula_tar member base_path;;
      mret (InstalledTo base_path, member).

Definition remove_file (path : string) (conn : option (gmap string string)) : M unit :=
  conn ← conn_or_init conn;
  log DEBUG ("Removing package file " +:+ path);;
  try_except_OSError (os_remove path)
    (fun err => if negb (is_ENOENT err) then raise (OSError err) else mret tt).

Definition path_exists (path : string) : M bool := os_path_exists path.


(** The caller's hash object: its state, [update] (which may raise) and
    [hexdigest]. *)
Section Hash.

Variable hashobj_t : Type.
Variable update : hashobj_t -> list Byte.byte -> exn + hashobj_t.
Variable hexdigest : hashobj_t -> string.

(** [hashobj.update(data)] *)
Definition hashobj_update (hashobj : hashobj_t) (data : list Byte.byte) : M hashobj_t :=
  fun w => (w, update hashobj data).

(** [hash_file] returns the digest string; the hash object it fed is
    returned with it.  The file is opened in binary mode, so [to_bytes]
    hands on what was read as it is. *)
Definition hash_file (path : string) (hashobj : hashobj_t)
    (conn : option (gmap string string)) : M (string * hashobj_t) :=
  is_dir ← os_path_isdir path;
  if (is_dir : bool) then mret (EmptyString, hashobj)
  else
    try_except_OSError
      (data ← read_file path;
       hashobj ← hashobj_update hashobj data;
       mret (hexdigest hashobj, hashobj))
      (fun err =>
         if is_ENOENT err then mret (EmptyString, hashobj)
         else raise (OSError err)).

End Hash.

End Local.

(** ** The refresh tag of [salt.modules.spm] and [salt.states.spm] *)

(** [os.path.join(a, b)] *)
Definition os_path_join (a b : string) : string :=
  if Py.startswith b "/" then b
  else if String.eqb a EmptyString || Py.endswith a "/" then a +:+ b
  else a +:+ "/" +:+ b.

(** [os.path.isfile(path)] *)
Definition os_path_isfile (path : string) : M bool :=
  fun w => (w, inr (match nodes w !! path with Some (File _) => true | _ => false end)).

(** [with fopen(path, "w+"): pass]: the file is created, or emptied. *)
Definition open_truncate (path : string) : M unit :=
  fun w => match faults w !! path with
           | Some e => (w, inl (OSError e))
           | None =>
               match nodes w !! path with
               | Some Dir => (w, inl (OSError (OSErr (Some EISDIR) "Is a directory")))
               | _ => (set_nodes (insert path (File [])) w, inr tt)
               end
           end.

Section RefreshTag.

(** The injected [__opts__], [exc.__str__()] and [salt.utils.data.is_true]. *)
Variable opts : Opts.
Variable oserror_str : oserror -> string.
Variable is_true : option bool -> bool.

(** [_refresh_tag] of both modules *)
Definition _refresh_tag : M string :=
  cachedir ← getitem (settings opts) "cachedir";
  mret (os_path_join cachedir "spm_refresh").

(** [salt.modules.spm._clear_refresh_tag] *)
Definition _clear_refresh_tag : M unit :=
  try_except_OSError
    (tag ← _refresh_tag; os_remove tag)
    (fun exc =>
       if negb (is_ENOENT exc) then
         log WARNING ("Encountered error removing refresh_tag: " +:+ oserror_str exc)
       else mret tt).

(** [salt.states.spm._write_refresh_tag] *)
Definition _write_refresh_tag : M unit :=
  refresh_tag_file ← _refresh_tag;
  present ← os_path_exists refresh_tag_file;
  if negb present then
    try_except_OSError (open_truncate refresh_tag_file)
      (fun exc =>
         log WARNING ("Encountered error writing refresh tag: " +:+ oserror_str exc))
  else mret tt.

(** [salt.states.spm._check_refresh]; [refresh] is [None], [True] or [False]. *)
Definition _check_refresh (refresh : option bool) : M bool :=
  if is_true refresh then mret true
  else
    tag ← _refresh_tag;
    is_file ← os_path_isfile tag;
    mret (is_file && negb (bool_decide (refresh = Some false))).

(** [salt.states.spm.mod_init] *)
Definition mod_init (low : gmap string string) : M bool :=
  fun_ ← getitem low "fun";
  if String.eqb fun_ "installed" || String.eqb fun_ "latest" then
    _write_refresh_tag;; mret true
  else mret false.

End RefreshTag.

(** ** Vocabulary of the statements *)

(** [n] copies of the slash *)
Fixpoint slashes (n : nat) : string :=
  match n with
  | O => EmptyString
  | S n' => String "/" (slashes n')
  end.

(** The top-level directory of a formula: its [top_level_dir] when it has
    one, else its [name], else the empty string. *)
Definition top_level_or_name (formula : gmap string string) : string :=
  match formula !! "top_level_dir" with
  | Some d => d
  | None => match formula !! "name" with
            | Some n => n
            | None => EmptyString
            end
  end.

(** [s] ends with [suf] *)
Definition ends_with (s suf : string) : Prop := exists p, s = p +:+ suf.

(** A connection with its four directories. *)
Definition conn_complete (c : gmap string string) : Prop :=
  is_Some (c !! "formula_path") /\ is_Some (c !! "pillar_path")
  /\ is_Some (c !! "reactor_path") /\ is_Some (c !! "spm_module_path").

(** Two worlds with the same file system. *)
Definition same_fs (w w' : World) : Prop :=
  nodes w = nodes w' /\ faults w = faults w'.

(** A computation that reads and changes the file system only: run in two
    worlds with the same file system it gives the same outcome and the
    same file system, and it leaves the log and the archive calls alone. *)
Definition fs_only {A} (c : M A) : Prop :=
  forall w wa, same_fs w wa ->
    same_fs (fst (c w)) (fst (c wa))
    /\ snd (c w) = snd (c wa)
    /\ logged (fst (c wa)) = logged wa
    /\ extracted (fst (c wa)) = extracted wa.

(** The world with no file, no failure, and nothing logged or extracted. *)
Definition blank : World := mkWorld ∅ ∅ [] [].

(** What [map_path] returns for a member path when it is given the
    connection [c]: the world it runs in does not matter. *)
Definition mapping (CONFIG_DIR : string) (opts : Opts)
    (c formula : gmap string string) (path : string)
  : exn + (option string * option string) :=
  snd (map_path CONFIG_DIR opts path formula None (Some c) blank).

Definition nonempty (s : string) : bool :=
  match s with EmptyString => false | String _ _ => true end.

(** The path a member resolves to: base, separator, relative path, when
    the mapping gives two halves that are not empty. *)
Definition resolved_path (CONFIG_DIR : string) (opts : Opts)
    (c formula : gmap string string) (m : Member) : option string :=
  match mapping CONFIG_DIR opts c formula (name m) with
  | inr (Some b, Some f) =>
      if nonempty b && nonempty f then Some (b +:+ "/" +:+ f) else None
  | _ => None
  end.

Definition exists_in (w : World) (p : string) : bool :=
  match nodes w !! p with Some _ => true | None => false end.

(** The conflict a member contributes to [check_existing], if any: it is
    not a directory, it resolves, and the resolved path exists in [w1]. *)
Definition conflict (CONFIG_DIR : string) (opts : Opts)
    (c formula : gmap string string) (w1 : World) (m : Member) : option string :=
  if isdir m then None
  else match resolved_path CONFIG_DIR opts c formula m with
       | Some p => if exists_in w1 p then Some p else None
       | None => None
       end.

(** The messages of [check_existing]. *)
Definition warn_msg (m : Member) : string :=
  name m +:+ " not in top level directory".

Definition exists_msg (p : string) : string :=
  p +:+ " already exists, not installing".


(** [s] is a tail of [t] *)
Definition tail_of (s t : string) : Prop := exists p, t = p +:+ s.

(** Where the refresh tag is kept. *)
Definition refresh_tag_path (cachedir : string) : string :=
  os_path_join cachedir "spm_refresh".

(** ** Sample data

    The connection and the formula of the documented scenario, and a few
    worlds to run the functions in. *)

Definition etc_salt : string := "/etc/salt".

Definition sample_conn : gmap string string :=
  <["formula_path" := "/f"]>
    (<["pillar_path" := "/p"]>
       (<["reactor_path" := "/r"]>
          (<["spm_module_path" := "/m"]> ∅))).

Definition apache : gmap string string := <["name" := "apache"]> ∅.

Definition apache_conf : gmap string string := <["name" := "apache-conf"]> ∅.

Definition apache_reactor : gmap string string := <["name" := "apache-reactor"]> ∅.

(** [__opts__] with the node role set to master, and with no node role. *)
Definition opts_master : Opts :=
  mkOpts (<["spm_node_type" := "master"]> ∅) (Some false).

Definition opts_no_role : Opts := mkOpts ∅ (Some false).

(** [__opts__] as [init] needs it, for the same four directories. *)
Definition opts_dirs : Opts :=
  mkOpts (<["spm_node_type" := "master"]> sample_conn) (Some false).

(** A world where [/f/README] and [/tmp/file1] are files and [/m/] is a
    directory; one where reading [/tmp/locked] is refused. *)
Definition world_installed : World :=
  mkWorld (<["/f/README" := File []]>
             (<["/tmp/file1" := File (list_byte_of_string "text")]>
                (<["/m/" := Dir]> ∅)))
          ∅ [] [].

Definition world_locked : World :=
  mkWorld (<["/tmp/locked" := File []]> ∅)
          (<["/tmp/locked" := OSErr (Some EACCES) "Permission denied"]> ∅) [] [].

(** Members of an archive of the formula. *)
Definition member_dir : Member := mkMember "apache" true.
Definition member_readme : Member := mkMember "apache/README" false.
Definition member_manifest : Member := mkMember "apache/FORMULA" false.
Definition member_underscore : Member := mkMember "apache/_" false.
Definition member_module : Member := mkMember "apache/_README" false.

(** A hash object for the examples: its state is the number of bytes it
    was fed, and its digest is that number in unary. *)
Definition count_update (h : nat) (data : list Byte.byte) : exn + nat :=
  inr (h + length data)%nat.

Fixpoint count_hexdigest (h : nat) : string :=
  match h with
  | O => EmptyString
  | S h' => String "1" (count_hexdigest h')
  end.

(** [__opts__] with no [force] entry, and with the cache directory only. *)
Definition opts_no_force : Opts :=
  mkOpts (<["spm_node_type" := "master"]> ∅) None.

Definition opts_cache : Opts :=
  mkOpts (<["cachedir" := "/var/cache/salt"]> ∅) (Some false).

(** Connections that lack a directory, and a formula with no name. *)
Definition conn_formula_only : gmap string string :=
  <["formula_path" := "/tmp/test"]> ∅.

Definition conn_pillar_only : gmap string string :=
  <["pillar_path" := "/p"]> ∅.

Definition nameless : gmap string string := <["top_level_dir" := "apache"]> ∅.

(** A world where creating [/f] is refused, and one where the refresh tag
    is a file. *)
Definition world_refused : World :=
  mkWorld ∅ (<["/f" := OSErr (Some EACCES) "Permission denied"]> ∅) [] [].

Definition world_tagged : World :=
  mkWorld (<["/var/cache/salt/spm_refresh" := File []]> ∅) ∅ [] [].

(** A rendering of errors and a reading of [refresh] for the examples. *)
Definition strerror_only (err : oserror) : string := strerror err.

Definition only_true (refresh : option bool) : bool :=
  match refresh with Some true => true | _ => false end.


(** A hash object whose [update] reports a missing file. *)
Definition enoent_update (h : nat) (data : list Byte.byte) : exn + nat :=
  inl (OSError (OSErr (Some ENOENT) "No such file or directory")).

(** ** Facts about the string primitives *)

Lemma app_cons (a : ascii) (p t : string) : String a p +:+ t = String a (p +:+ t).
Proof. reflexivity. Qed.

Lemma startswith_app (p t : string) : Py.startswith (p +:+ t) p = true.
Proof.
  induction p as [|a p IH]; [reflexivity|].
  rewrite app_cons. cbn. rewrite Ascii.eqb_refl. exact IH.
Qed.

Lemma startswith_split (s p : string) :
  Py.startswith s p = true -> exists t, s = p +:+ t.
Proof.
  revert s; induction p as [|a p IH]; intros s H.
  - exists s; reflexivity.
  - destruct s as [|b s]; [discriminate|]. cbn in H.
    apply andb_true_iff in H as [Hab H]. apply Ascii.eqb_eq in Hab as ->.
    destruct (IH _ H) as [t ->]. exists t; reflexivity.
Qed.

Lemma slice_from_app (p t : string) :
  Py.slice_from (String.length p) (p +:+ t) = t.
Proof. induction p; [reflexivity|]. rewrite app_cons. cbn. assumption. Qed.

Lemma replace_first_unfold (old new s : string) :
  Py.replace_first old new s =
  if Py.startswith s old then new +:+ Py.slice_from (String.length old) s
  else match s with
       | EmptyString => EmptyString
       | String c s' => String c (Py.replace_first old new s')
       end.
Proof. destruct s; reflexivity. Qed.

Lemma replace_first_app (p t : string) :
  Py.replace_first p EmptyString (p +:+ t) = t.
Proof.
  rewrite replace_first_unfold, startswith_app, slice_from_app. reflexivity.
Qed.

Lemma skip_slashes_spec (s : string) :
  exists n, s = slashes n +:+ Py.skip_slashes s
            /\ Py.startswith (Py.skip_slashes s) "/" = false.
Proof.
  induction s as [|a s IH].
  - exists 0%nat. split; reflexivity.
  - destruct (Ascii.ascii_dec a "/") as [->|Hne].
    + destruct IH as (n & Hs & Hn). exists (S n). cbn. split; [|exact Hn].
      rewrite app_cons. f_equal. exact Hs.
    + exists 0%nat.
      assert (Py.skip_slashes (String a s) = String a s) as ->.
      { simpl. destruct a as [[] [] [] [] [] [] [] []]; try reflexivity.
        exfalso; apply Hne; reflexivity. }
      split; [reflexivity|].
      change (Py.startswith (String a s) "/") with (Ascii.eqb "/" a && true).
      destruct (Ascii.eqb_spec "/" a); [congruence | reflexivity].
Qed.

Lemma re_sub_pillar_app (rest : string) :
  Py.re_sub_pillar ("_pillar/" +:+ rest) = Py.skip_slashes rest.
Proof. reflexivity. Qed.

Lemma length_app (p t : string) :
  String.length (p +:+ t) = (String.length p + String.length t)%nat.
Proof. induction p; [reflexivity|]. rewrite app_cons. cbn. congruence. Qed.

Lemma slice_from_split (n : nat) (s : string) :
  exists p, s = p +:+ Py.slice_from n s.
Proof.
  revert s; induction n as [|n IH]; intros s.
  - exists EmptyString. reflexivity.
  - destruct s as [|a s]; [exists EmptyString; reflexivity|].
    destruct (IH s) as [p Hp]. exists (String a p).
    rewrite app_cons. cbn. congruence.
Qed.

(** [s.endswith(suf)] holds exactly when [s] is some string followed by
    [suf]. *)
Lemma endswith_iff (s suf : string) :
  Py.endswith s suf = true <-> exists p, s = p +:+ suf.
Proof.
  unfold Py.endswith. rewrite andb_true_iff, Nat.leb_le, String.eqb_eq. split.
  - intros [_ H]. destruct (slice_from_split (String.length s - String.length suf) s)
      as [p Hp]. exists p. congruence.
  - intros [p ->]. rewrite length_app. split; [lia|].
    replace (String.length p + String.length suf - String.length suf)%nat
      with (String.length p) by lia.
    apply slice_from_app.
Qed.

(** ** Running the monad *)

Lemma bind_ok {A B} (c : M A) (k : A -> M B) w w' a :
  c w = (w', inr a) -> (c ≫= k) w = k a w'.
Proof. intros H. unfold mbind, M_bind. rewrite H. reflexivity. Qed.

Lemma bind_raise {A B} (c : M A) (k : A -> M B) w w' e :
  c w = (w', inl e) -> (c ≫= k) w = (w', inl e).
Proof. intros H. unfold mbind, M_bind. rewrite H. reflexivity. Qed.

Lemma getitem_ok {V} (d : gmap string V) k v w :
  d !! k = Some v -> getitem d k w = (w, inr v).
Proof. intros H. unfold getitem. rewrite H. reflexivity. Qed.

Lemma getitem_raise {V} (d : gmap string V) k w :
  d !! k = None -> getitem d k w = (w, inl (KeyError k)).
Proof. intros H. unfold getitem. rewrite H. reflexivity. Qed.

Arguments Py.startswith : simpl never.
Arguments Py.endswith : simpl never.
Arguments Py.replace_first : simpl never.
Arguments Py.re_sub_pillar : simpl never.
Arguments Py.slice_from : simpl never.

(** ** The path mapper *)

Section MapPath.

Variable CONFIG_DIR : string.
Variable opts : Opts.

Implicit Types (path trimmed rest : string) (formula c : gmap string string)
  (parent_dir : option string) (conn : option (gmap string string)) (w : World).

(** Stepping into the body of [map_path]: [Hc] is the outcome of
    acquiring the connection. *)
Ltac enter_map_path Hc :=
  unfold map_path; rewrite (bind_ok _ _ _ _ _ Hc).

(** Past the prefix test, with the formula directory [Hf] looked up. *)
Ltac dispatch_map_path Hc Hf :=
  enter_map_path Hc;
  rewrite startswith_app, replace_first_app; cbn [negb];
  rewrite (bind_ok _ _ _ _ _ (getitem_ok _ _ _ _ Hf)).

Ltac lookup_ok H := rewrite (bind_ok _ _ _ _ _ (getitem_ok _ _ _ _ H)).

(** C1: the expected prefix is [parent_dir] when it is given and not empty,
    and the top-level directory (or the name) followed by a slash otherwise;
    a member path that does not start with the prefix, and the member path
    whose trimmed remainder is FORMULA, both map to (None, None), whatever
    the formula's name and the node role. *)
Theorem map_path_outside_or_manifest path formula parent_dir conn w w1 c :
  conn_or_init opts conn w = (w1, inr c) ->
  (forall p, parent_dir = Some p -> p <> EmptyString ->
             expected_prefix formula parent_dir = p)
  /\ (parent_dir = None \/ parent_dir = Some EmptyString ->
      expected_prefix formula parent_dir = top_level_or_name formula +:+ "/")
  /\ (Py.startswith path (expected_prefix formula parent_dir) = false ->
      map_path CONFIG_DIR opts path formula parent_dir conn w
      = (w1, inr (None, None)))
  /\ (is_Some (c !! "formula_path") ->
      path = expected_prefix formula parent_dir +:+ "FORMULA" ->
      map_path CONFIG_DIR opts path formula parent_dir conn w
      = (w1, inr (None, None))).
Proof.
  intros Hc. repeat split.
  - intros p -> Hp. destruct p; [congruence | reflexivity].
  - unfold expected_prefix, top_level_or_name.
    intros [-> | ->]; cbn; destruct (formula !! "top_level_dir");
      try reflexivity; destruct (formula !! "name"); reflexivity.
  - intros Hout. enter_map_path Hc. rewrite Hout. reflexivity.
  - intros [fdir Hf] ->. dispatch_map_path Hc Hf. reflexivity.
Qed.

(** The pillar rule, whatever the formula is called. *)
Lemma map_path_pillar_rule rest formula parent_dir conn w w1 c fdir pdir :
  conn_or_init opts conn w = (w1, inr c) ->
  c !! "formula_path" = Some fdir ->
  c !! "pillar_path" = Some pdir ->
  map_path CONFIG_DIR opts
    (expected_prefix formula parent_dir +:+ "_pillar/" +:+ rest)
    formula parent_dir conn w
  = (w1, inr (Some pdir, Some (Py.skip_slashes rest))).
Proof.
  intros Hc Hf Hp. dispatch_map_path Hc Hf.
  change (String.eqb ("_pillar/" +:+ rest) "FORMULA") with false.
  rewrite (startswith_app "_pillar/" rest). cbv iota.
  lookup_ok Hp. reflexivity.
Qed.

(** C2: a trimmed remainder that starts with [_pillar/] maps to the pillar
    directory and to what follows [_pillar/] once the slashes that
    immediately follow it are dropped; [_pillar/x/y.sls] maps to
    [x/y.sls]. *)
Theorem map_path_pillar_prefix rest formula parent_dir conn w w1 c fdir pdir :
  conn_or_init opts conn w = (w1, inr c) ->
  c !! "formula_path" = Some fdir ->
  c !! "pillar_path" = Some pdir ->
  (exists (n : nat) (relative : string),
      rest = slashes n +:+ relative
      /\ Py.startswith relative "/" = false
      /\ map_path CONFIG_DIR opts
           (expected_prefix formula parent_dir +:+ "_pillar/" +:+ rest)
           formula parent_dir conn w
         = (w1, inr (Some pdir, Some relative)))
  /\ map_path CONFIG_DIR opts
       (expected_prefix formula parent_dir +:+ "_pillar/x/y.sls")
       formula parent_dir conn w
     = (w1, inr (Some pdir, Some "x/y.sls")).
Proof.
  intros Hc Hf Hp. split.
  - destruct (skip_slashes_spec rest) as (n & Hrest & Hns).
    exists n, (Py.skip_slashes rest). repeat split; [exact Hrest | exact Hns |].
    eapply map_path_pillar_rule; eassumption.
  - apply (map_path_pillar_rule "x/y.sls" _ _ _ _ _ _ _ _ Hc Hf Hp).
Qed.

(** The two outcomes of the leading-underscore rule. *)
Lemma map_path_underscore_known_role rest formula parent_dir conn w w1 c fdir mdir :
  conn_or_init opts conn w = (w1, inr c) ->
  c !! "formula_path" = Some fdir ->
  Py.startswith ("_" +:+ rest) "_pillar/" = false ->
  settings opts !! "spm_node_type" = Some "master"
  \/ settings opts !! "spm_node_type" = Some "minion" ->
  c !! "spm_module_path" = Some mdir ->
  map_path CONFIG_DIR opts (expected_prefix formula parent_dir +:+ "_" +:+ rest)
    formula parent_dir conn w
  = (w1, inr (Some mdir, Some rest)).
Proof.
  intros Hc Hf Hnp Hrole Hm. dispatch_map_path Hc Hf.
  change (String.eqb ("_" +:+ rest) "FORMULA") with false.
  rewrite Hnp. change (Py.startswith ("_" +:+ rest) "_") with true. cbv iota.
  destruct Hrole as [-> | ->]; cbn; lookup_ok Hm; reflexivity.
Qed.

Lemma map_path_underscore_unknown_role rest formula parent_dir conn w w1 c fdir :
  conn_or_init opts conn w = (w1, inr c) ->
  c !! "formula_path" = Some fdir ->
  Py.startswith ("_" +:+ rest) "_pillar/" = false ->
  settings opts !! "spm_node_type" <> Some "master" ->
  settings opts !! "spm_node_type" <> Some "minion" ->
  map_path CONFIG_DIR opts (expected_prefix formula parent_dir +:+ "_" +:+ rest)
    formula parent_dir conn w
  = (emit ERROR node_type_not_set w1, inr (None, None)).
Proof.
  intros Hc Hf Hnp Hma Hmi. dispatch_map_path Hc Hf.
  change (String.eqb ("_" +:+ rest) "FORMULA") with false.
  rewrite Hnp. change (Py.startswith ("_" +:+ rest) "_") with true. cbv iota.
  assert (String.eqb (Py.str (settings opts !! "spm_node_type")) "master" = false) as ->.
  { destruct (settings opts !! "spm_node_type") as [r|]; [|reflexivity].
    apply String.eqb_neq. cbn. congruence. }
  assert (String.eqb (Py.str (settings opts !! "spm_node_type")) "minion" = false) as ->.
  { destruct (settings opts !! "spm_node_type") as [r|]; [|reflexivity].
    apply String.eqb_neq. cbn. congruence. }
  reflexivity.
Qed.

(** C3: a trimmed remainder that starts with an underscore but not with
    [_pillar/] maps, when the node role is master or minion, to the module
    directory and the remainder without its first underscore; with any other
    role, or none, an error is logged and (None, None) is returned: no
    exception is raised. *)
Theorem map_path_module_file rest formula parent_dir conn w w1 c fdir :
  conn_or_init opts conn w = (w1, inr c) ->
  c !! "formula_path" = Some fdir ->
  Py.startswith ("_" +:+ rest) "_pillar/" = false ->
  (forall mdir,
      settings opts !! "spm_node_type" = Some "master"
      \/ settings opts !! "spm_node_type" = Some "minion" ->
      c !! "spm_module_path" = Some mdir ->
      map_path CONFIG_DIR opts (expected_prefix formula parent_dir +:+ "_" +:+ rest)
        formula parent_dir conn w
      = (w1, inr (Some mdir, Some rest)))
  /\ (settings opts !! "spm_node_type" <> Some "master" ->
      settings opts !! "spm_node_type" <> Some "minion" ->
      map_path CONFIG_DIR opts (expected_prefix formula parent_dir +:+ "_" +:+ rest)
        formula parent_dir conn w
      = (emit ERROR node_type_not_set w1, inr (None, None))).
Proof.
  intros Hc Hf Hnp. split.
  - intros mdir Hrole Hm. eapply map_path_underscore_known_role; eassumption.
  - intros Hma Hmi. eapply map_path_underscore_unknown_role; eassumption.
Qed.

(** C10: the trimmed remainder [_pillar], without a slash, does not start
    with [_pillar/]; it falls under the leading-underscore rule and maps to
    the module directory and [pillar] when the role is master or minion, and
    to (None, None) otherwise. *)
Theorem map_path_bare_pillar formula parent_dir conn w w1 c fdir :
  conn_or_init opts conn w = (w1, inr c) ->
  c !! "formula_path" = Some fdir ->
  Py.startswith "_pillar" "_pillar/" = false
  /\ (forall mdir,
      settings opts !! "spm_node_type" = Some "master"
      \/ settings opts !! "spm_node_type" = Some "minion" ->
      c !! "spm_module_path" = Some mdir ->
      map_path CONFIG_DIR opts (expected_prefix formula parent_dir +:+ "_pillar")
        formula parent_dir conn w
      = (w1, inr (Some mdir, Some "pillar")))
  /\ (settings opts !! "spm_node_type" <> Some "master" ->
      settings opts !! "spm_node_type" <> Some "minion" ->
      map_path CONFIG_DIR opts (expected_prefix formula parent_dir +:+ "_pillar")
        formula parent_dir conn w
      = (emit ERROR node_type_not_set w1, inr (None, None))).
Proof.
  intros Hc Hf. split; [reflexivity|]. split.
  - intros mdir Hrole Hm.
    apply (map_path_underscore_known_role "pillar" _ _ _ _ _ _ _ _ Hc Hf eq_refl Hrole Hm).
  - intros Hma Hmi.
    apply (map_path_underscore_unknown_role "pillar" _ _ _ _ _ _ _ Hc Hf eq_refl Hma Hmi).
Qed.

Lemma endswith_false (s suf : string) :
  ~ ends_with s suf -> Py.endswith s suf = false.
Proof.
  intros H. destruct (Py.endswith s suf) eqn:E; [|reflexivity].
  exfalso. apply H, endswith_iff, E.
Qed.

Lemma eqb_false (s t : string) : s <> t -> String.eqb s t = false.
Proof. apply String.eqb_neq. Qed.

(** C4: a trimmed remainder that is not FORMULA and starts neither with
    [_pillar/] nor with an underscore is resolved by the first rule that
    applies: [pillar.example] goes to the pillar directory under the name
    of the formula followed by [.sls.orig]; else a formula whose name ends
    with [-conf] sends it unchanged to the configuration directory; else
    one whose name ends with [-reactor] sends it unchanged to the reactor
    directory; else it goes unchanged to the formula directory.  The pillar
    rule comes before the rules on the name: for a formula whose name ends
    with [-conf], a trimmed remainder that starts with [_pillar/] still
    maps to the pillar directory. *)
Theorem map_path_ordinary_file trimmed formula parent_dir conn w w1 c fdir nm :
  conn_or_init opts conn w = (w1, inr c) ->
  c !! "formula_path" = Some fdir ->
  formula !! "name" = Some nm ->
  trimmed <> "FORMULA" ->
  Py.startswith trimmed "_pillar/" = false ->
  Py.startswith trimmed "_" = false ->
  (trimmed = "pillar.example" ->
   forall pdir, c !! "pillar_path" = Some pdir ->
     map_path CONFIG_DIR opts (expected_prefix formula parent_dir +:+ trimmed)
       formula parent_dir conn w
     = (w1, inr (Some pdir, Some (nm +:+ ".sls.orig"))))
  /\ (trimmed <> "pillar.example" -> ends_with nm "-conf" ->
      map_path CONFIG_DIR opts (expected_prefix formula parent_dir +:+ trimmed)
        formula parent_dir conn w
      = (w1, inr (Some CONFIG_DIR, Some trimmed)))
  /\ (trimmed <> "pillar.example" -> ~ ends_with nm "-conf" ->
      ends_with nm "-reactor" ->
      forall rdir, c !! "reactor_path" = Some rdir ->
        map_path CONFIG_DIR opts (expected_prefix formula parent_dir +:+ trimmed)
          formula parent_dir conn w
        = (w1, inr (Some rdir, Some trimmed)))
  /\ (trimmed <> "pillar.example" -> ~ ends_with nm "-conf" ->
      ~ ends_with nm "-reactor" ->
      map_path CONFIG_DIR opts (expected_prefix formula parent_dir +:+ trimmed)
        formula parent_dir conn w
      = (w1, inr (Some fdir, Some trimmed)))
  /\ (ends_with nm "-conf" ->
      forall rest pdir, c !! "pillar_path" = Some pdir ->
        map_path CONFIG_DIR opts
          (expected_prefix formula parent_dir +:+ "_pillar/" +:+ rest)
          formula parent_dir conn w
        = (w1, inr (Some pdir, Some (Py.skip_slashes rest)))).
Proof.
  intros Hc Hf Hn Hman Hnp Hnu.
  repeat split.
  - intros -> pdir Hp. dispatch_map_path Hc Hf.
    rewrite (eqb_false _ _ Hman), Hnp, Hnu.
    change (String.eqb "pillar.example" "pillar.example") with true. cbv iota.
    lookup_ok Hp. lookup_ok Hn. reflexivity.
  - intros Hex Hconf. dispatch_map_path Hc Hf.
    rewrite (eqb_false _ _ Hman), Hnp, Hnu, (eqb_false _ _ Hex).
    lookup_ok Hn. apply endswith_iff in Hconf. rewrite Hconf. reflexivity.
  - intros Hex Hconf Hreact rdir Hr. dispatch_map_path Hc Hf.
    rewrite (eqb_false _ _ Hman), Hnp, Hnu, (eqb_false _ _ Hex).
    lookup_ok Hn. rewrite (endswith_false _ _ Hconf).
    lookup_ok Hn. apply endswith_iff in Hreact. rewrite Hreact.
    lookup_ok Hr. reflexivity.
  - intros Hex Hconf Hreact. dispatch_map_path Hc Hf.
    rewrite (eqb_false _ _ Hman), Hnp, Hnu, (eqb_false _ _ Hex).
    lookup_ok Hn. rewrite (endswith_false _ _ Hconf).
    lookup_ok Hn. rewrite (endswith_false _ _ Hreact). reflexivity.
  - intros _ rest pdir Hp. eapply map_path_pillar_rule; eassumption.
Qed.

(** With a complete connection and a named formula, [map_path] returns. *)
Lemma map_path_returns path formula parent_dir conn w w1 c :
  conn_or_init opts conn w = (w1, inr c) ->
  conn_complete c ->
  is_Some (formula !! "name") ->
  exists w' base_path file_path,
    map_path CONFIG_DIR opts path formula parent_dir conn w
    = (w', inr (base_path, file_path)).
Proof.
  intros Hc ([fdir Hf] & [pdir Hp] & [rdir Hr] & [mdir Hm]) [nm Hn].
  enter_map_path Hc.
  destruct (negb _); [eauto|].
  lookup_ok Hf.
  repeat match goal with
         | |- context [if ?b then _ else _] => destruct b
         | |- context [(getitem c "pillar_path" ≫= _) _] => lookup_ok Hp
         | |- context [(getitem c "reactor_path" ≫= _) _] => lookup_ok Hr
         | |- context [(getitem c "spm_module_path" ≫= _) _] => lookup_ok Hm
         | |- context [(getitem formula "name" ≫= _) _] => lookup_ok Hn
         end; eauto.
Qed.

(** C7: whatever the input, a pair returned by [map_path] has both halves
    None or both halves determined; and [map_path] does return a pair when
    the connection has its four directories and the formula a name. *)
Theorem map_path_all_or_nothing path formula parent_dir conn w :
  (forall w' base_path file_path,
      map_path CONFIG_DIR opts path formula parent_dir conn w
      = (w', inr (base_path, file_path)) ->
      (base_path = None /\ file_path = None)
      \/ (is_Some base_path /\ is_Some file_path))
  /\ (forall w1 c,
      conn_or_init opts conn w = (w1, inr c) ->
      conn_complete c ->
      is_Some (formula !! "name") ->
      exists w' base_path file_path,
        map_path CONFIG_DIR opts path formula parent_dir conn w
        = (w', inr (base_path, file_path))).
Proof.
  split; [|apply map_path_returns].
  intros w' base_path file_path H.
  unfold map_path, mbind, M_bind, getitem, mret, M_ret, raise, log in H.
  repeat case_match; simplify_eq; eauto.
Qed.

End MapPath.

(** ** Removing and hashing files *)

Lemma os_remove_ok path w w' :
  os_remove path w = (w', inr tt) ->
  w' = set_nodes (delete path) w /\ nodes w' !! path = None.
Proof.
  unfold os_remove. intros H.
  repeat case_match; simplify_eq. split; [reflexivity|].
  cbn. apply lookup_delete_eq.
Qed.

Section FileOps.

Variable opts : Opts.

Implicit Types (path : string) (conn : option (gmap string string)) (w : World).

(** C9: [remove_file] deletes the file and returns nothing, after which
    the path does not exist; a path that is not there is not an error; an
    [OSError] whose errno is not ENOENT reaches the caller as it was
    raised. *)
Theorem remove_file_spec path conn w w1 c :
  conn_or_init opts conn w = (w1, inr c) ->
  (forall data,
      nodes w1 !! path = Some (File data) -> faults w1 !! path = None ->
      remove_file opts path conn w
      = (set_nodes (delete path)
           (emit DEBUG ("Removing package file " +:+ path) w1), inr tt))
  /\ (forall w3,
      os_remove path (emit DEBUG ("Removing package file " +:+ path) w1) = (w3, inr tt) ->
      remove_file opts path conn w = (w3, inr tt)
      /\ nodes w3 = delete path (nodes w1)
      /\ path_exists path w3 = (w3, inr false))
  /\ (nodes w1 !! path = None -> faults w1 !! path = None ->
      remove_file opts path conn w
      = (emit DEBUG ("Removing package file " +:+ path) w1, inr tt))
  /\ (forall w3 err,
      os_remove path (emit DEBUG ("Removing package file " +:+ path) w1)
      = (w3, inl (OSError err)) ->
      errno err = Some ENOENT ->
      remove_file opts path conn w = (w3, inr tt))
  /\ (forall w3 err,
      os_remove path (emit DEBUG ("Removing package file " +:+ path) w1)
      = (w3, inl (OSError err)) ->
      errno err <> Some ENOENT ->
      remove_file opts path conn w = (w3, inl (OSError err))).
Proof.
  intros Hc.
  assert (forall r,
    os_remove path (emit DEBUG ("Removing package file " +:+ path) w1) = r ->
    remove_file opts path conn w
    = match r with
      | (w', inl (OSError err)) =>
          if negb (is_ENOENT err) then (w', inl (OSError err)) else (w', inr tt)
      | r => r
      end) as Hrun.
  { intros r Hr. unfold remove_file. rewrite (bind_ok _ _ _ _ _ Hc).
    unfold mbind at 1, M_bind at 1, log at 1. unfold try_except_OSError.
    rewrite Hr. destruct r as [w' [[k|err]|[]]]; try reflexivity.
    destruct (negb (is_ENOENT err)); reflexivity. }
  split; [|repeat split].
  - intros data Hn Hfl. rewrite (Hrun _ eq_refl). unfold os_remove. cbn.
    rewrite Hfl, Hn. reflexivity.
  - rewrite (Hrun _ H). reflexivity.
  - apply os_remove_ok in H as [-> _]. reflexivity.
  - apply os_remove_ok in H as [_ H]. unfold path_exists, os_path_exists.
    rewrite H. reflexivity.
  - intros Hn Hfl. rewrite (Hrun _ eq_refl). unfold os_remove. cbn.
    rewrite Hfl, Hn. reflexivity.
  - intros w3 err H He. rewrite (Hrun _ H). unfold is_ENOENT. rewrite He.
    reflexivity.
  - intros w3 err H He. rewrite (Hrun _ H). unfold is_ENOENT.
    destruct (errno err) as [e|]; [|reflexivity].
    destruct (Z.eqb_spec ENOENT e); [congruence | reflexivity].
Qed.

Section HashFile.

Variable hashobj_t : Type.
Variable update : hashobj_t -> list Byte.byte -> exn + hashobj_t.
Variable hexdigest : hashobj_t -> string.

Implicit Types (hashobj : hashobj_t) (data : list Byte.byte).

Lemma hash_file_not_dir path hashobj conn w :
  nodes w !! path <> Some Dir ->
  hash_file hashobj_t update hexdigest path hashobj conn w
  = try_except_OSError
      (read_file path ≫= λ data,
         hashobj_update hashobj_t update hashobj data ≫= λ hashobj',
           mret (hexdigest hashobj', hashobj'))
      (fun err => if is_ENOENT err then mret (EmptyString, hashobj)
                  else raise (OSError err)) w.
Proof.
  intros Hnd. unfold hash_file.
  unfold mbind at 1, M_bind at 1, os_path_isdir at 1.
  destruct (nodes w !! path) as [[]|]; try reflexivity. congruence.
Qed.

(** What [hash_file] returns for a regular file that can be read. *)
Lemma hash_file_content path hashobj hashobj' conn w data :
  faults w !! path = None ->
  nodes w !! path = Some (File data) ->
  update hashobj data = inr hashobj' ->
  hash_file hashobj_t update hexdigest path hashobj conn w
  = (w, inr (hexdigest hashobj', hashobj')).
Proof.
  intros Hfl Hn Hu. rewrite hash_file_not_dir by congruence.
  unfold try_except_OSError, mbind, M_bind, read_file, hashobj_update.
  rewrite Hfl, Hn, Hu. reflexivity.
Qed.

(** C8: [hash_file] returns the empty string for a directory and for a
    path that is not there (opening it fails with ENOENT); another failure
    to open or read the file reaches the caller as it was raised; otherwise
    the whole content of the file is fed to the hash object and its digest
    is returned, which depends on the content and the hash object only. *)
Theorem hash_file_spec path hashobj conn w :
  (nodes w !! path = Some Dir ->
   hash_file hashobj_t update hexdigest path hashobj conn w
   = (w, inr (EmptyString, hashobj)))
  /\ (nodes w !! path = None -> faults w !! path = None ->
      hash_file hashobj_t update hexdigest path hashobj conn w
      = (w, inr (EmptyString, hashobj)))
  /\ (forall err w',
      nodes w !! path <> Some Dir ->
      read_file path w = (w', inl (OSError err)) ->
      (errno err = Some ENOENT ->
       hash_file hashobj_t update hexdigest path hashobj conn w
       = (w', inr (EmptyString, hashobj)))
      /\ (errno err <> Some ENOENT ->
          hash_file hashobj_t update hexdigest path hashobj conn w
          = (w', inl (OSError err))))
  /\ (forall data hashobj',
      faults w !! path = None ->
      nodes w !! path = Some (File data) ->
      update hashobj data = inr hashobj' ->
      hash_file hashobj_t update hexdigest path hashobj conn w
      = (w, inr (hexdigest hashobj', hashobj'))
      /\ forall path2 conn2 w2,
          faults w2 !! path2 = None ->
          nodes w2 !! path2 = Some (File data) ->
          snd (hash_file hashobj_t update hexdigest path2 hashobj conn2 w2)
          = snd (hash_file hashobj_t update hexdigest path hashobj conn w)).
Proof.
  split; [|split; [|split]].
  - intros Hd. unfold hash_file.
    unfold mbind at 1, M_bind at 1, os_path_isdir at 1. rewrite Hd. reflexivity.
  - intros Hn Hfl. rewrite hash_file_not_dir by congruence.
    unfold try_except_OSError, mbind, M_bind, read_file.
    rewrite Hfl, Hn. reflexivity.
  - intros err w' Hnd Hr. rewrite hash_file_not_dir by assumption.
    unfold try_except_OSError. rewrite (bind_raise _ _ _ _ _ Hr).
    unfold is_ENOENT. split; intros He.
    + rewrite He. reflexivity.
    + destruct (errno err) as [e|]; [|reflexivity].
      destruct (Z.eqb_spec ENOENT e); [congruence | reflexivity].
  - intros data hashobj' Hfl Hn Hu. split.
    + eapply hash_file_content; eassumption.
    + intros path2 conn2 w2 Hfl2 Hn2.
      rewrite (hash_file_content _ _ _ _ _ _ Hfl2 Hn2 Hu).
      rewrite (hash_file_content _ _ _ _ _ _ Hfl Hn Hu). reflexivity.
Qed.

End HashFile.

End FileOps.

(** ** Worlds that differ in the log only *)

Ltac in_list :=
  rewrite ?elem_of_cons, ?elem_of_app, ?elem_of_cons; tauto.

Lemma same_fs_refl w : same_fs w w.
Proof. split; reflexivity. Qed.

Lemma same_fs_sym w w' : same_fs w w' -> same_fs w' w.
Proof. intros [? ?]; split; congruence. Qed.

Lemma same_fs_trans w w' w'' : same_fs w w' -> same_fs w' w'' -> same_fs w w''.
Proof. intros [? ?] [? ?]; split; congruence. Qed.

Lemma same_fs_emit l msg w : same_fs (emit l msg w) w.
Proof. split; reflexivity. Qed.

Lemma ensure_dirs_fs_only dirs : fs_only (ensure_dirs dirs).
Proof.
  induction dirs as [|d dirs IH]; intros w wa [Hn Hf].
  - cbn. repeat split; assumption.
  - cbn [ensure_dirs]. unfold mbind, M_bind, os_path_exists, os_makedirs, mret, M_ret.
    rewrite <- Hn.
    destruct (nodes w !! d) eqn:Hd; cbn [negb].
    + apply IH. split; assumption.
    + rewrite <- Hf, <- Hn, Hd. destruct (faults w !! d) eqn:Hfd.
      * cbn. repeat split; assumption.
      * apply (IH (set_nodes (insert d Dir) w) (set_nodes (insert d Dir) wa)).
        split; cbn; congruence.
Qed.

Lemma ensure_dirs_present dirs w w1 :
  ensure_dirs dirs w = (w1, inr tt) ->
  (forall p, is_Some (nodes w !! p) -> is_Some (nodes w1 !! p))
  /\ Forall (fun d => is_Some (nodes w1 !! d)) dirs.
Proof.
  revert w; induction dirs as [|d dirs IH]; intros w H.
  - cbn in H. injection H as <-. split; [auto | constructor].
  - cbn [ensure_dirs] in H.
    unfold mbind, M_bind, os_path_exists, os_makedirs, mret, M_ret in H.
    destruct (nodes w !! d) eqn:Hd; cbn [negb] in H.
    + destruct (IH _ H) as [Hmono Hall]. split; [exact Hmono|].
      constructor; [|exact Hall]. apply Hmono. rewrite Hd. eauto.
    + destruct (faults w !! d); [discriminate|]. rewrite Hd in H.
      destruct (IH _ H) as [Hmono Hall].
      assert (forall p, is_Some (nodes w !! p) -> is_Some (nodes w1 !! p)) as Hm.
      { intros p Hp. apply Hmono. cbn.
        destruct (decide (d = p)) as [->|Hne].
        - rewrite lookup_insert_eq. eauto.
        - rewrite lookup_insert_ne by assumption. exact Hp. }
      split; [exact Hm|]. constructor; [|exact Hall].
      apply Hmono. cbn. rewrite lookup_insert_eq. eauto.
Qed.

Lemma ensure_dirs_noop dirs w :
  Forall (fun d => is_Some (nodes w !! d)) dirs ->
  ensure_dirs dirs w = (w, inr tt).
Proof.
  induction 1 as [|d dirs [n Hd] _ IH]; [reflexivity|].
  cbn [ensure_dirs]. unfold mbind, M_bind, os_path_exists, mret, M_ret.
  rewrite Hd. cbn [negb]. exact IH.
Qed.

Lemma fs_only_bind {A B} (c : M A) (k : A -> M B) :
  fs_only c -> (forall a, fs_only (k a)) -> fs_only (c ≫= k).
Proof.
  intros Hc Hk w wa Hw. unfold mbind, M_bind.
  destruct (Hc w wa Hw) as (Hs & Hr & Hl & He).
  destruct (c w) as [w1 r1], (c wa) as [wa1 ra1]. cbn in Hs, Hr, Hl, He. subst r1.
  destruct ra1 as [e|a]; [cbn; auto|].
  destruct (Hk a w1 wa1 Hs) as (Hs' & Hr' & Hl' & He').
  repeat split; try apply Hs'; congruence.
Qed.

Lemma fs_only_pure {A} (r : exn + A) : fs_only (fun w => (w, r)).
Proof. intros w wa Hw. cbn. auto. Qed.

Lemma fs_only_getitem {V} (d : gmap string V) k : fs_only (getitem d k).
Proof. unfold getitem. destruct (d !! k); apply fs_only_pure. Qed.

Section Init.

Variable opts : Opts.

Lemma init_fs_only : fs_only (init opts).
Proof.
  unfold init.
  repeat (apply fs_only_bind; [apply fs_only_getitem | intros ?]).
  apply fs_only_bind; [apply ensure_dirs_fs_only | intros ?].
  apply fs_only_pure.
Qed.

Lemma init_idempotent w w1 c :
  init opts w = (w1, inr c) ->
  forall w2, same_fs w2 w1 -> init opts w2 = (w2, inr c).
Proof.
  unfold init, getitem. intros H w2 [Hn _].
  destruct (settings opts !! "formula_path") as [f|]; [|discriminate].
  destruct (settings opts !! "pillar_path") as [p|]; [|discriminate].
  destruct (settings opts !! "reactor_path") as [r|]; [|discriminate].
  destruct (settings opts !! "spm_module_path") as [m|]; [|discriminate].
  unfold mbind, M_bind, mret, M_ret in *.
  destruct (ensure_dirs [f; p; r; m] w) as [w' [e|[]]] eqn:Hd; [discriminate|].
  injection H as -> <-.
  apply ensure_dirs_present in Hd as [_ Hall].
  rewrite ensure_dirs_noop; [reflexivity|].
  rewrite Hn. exact Hall.
Qed.

Lemma conn_or_init_later conn w w1 c :
  conn_or_init opts conn w = (w1, inr c) ->
  forall wk, same_fs wk w \/ same_fs wk w1 ->
    exists wk', conn_or_init opts conn wk = (wk', inr c)
                /\ same_fs wk' w1
                /\ logged wk' = logged wk
                /\ extracted wk' = extracted wk.
Proof.
  intros H wk Hk. destruct conn as [c0|]; cbn in *.
  - injection H as <- <-. exists wk. repeat split; try reflexivity;
      destruct Hk as [[? ?]|[? ?]]; assumption.
  - destruct Hk as [Hk|Hk].
    + destruct (init_fs_only w wk (same_fs_sym _ _ Hk)) as (Hs & Hr & Hl & He).
      rewrite H in Hs, Hr. cbn in Hs, Hr.
      exists (fst (init opts wk)). repeat split; try assumption; try apply Hs.
      * destruct (init opts wk); cbn in *; congruence.
      * symmetry; apply Hs.
      * symmetry; apply Hs.
    + exists wk. rewrite (init_idempotent _ _ _ H wk Hk).
      repeat split; apply Hk.
Qed.

End Init.

Section Scan.

Variable CONFIG_DIR : string.
Variable opts : Opts.

Lemma map_path_run path formula conn wk wk' c :
  conn_or_init opts conn wk = (wk', inr c) ->
  exists wk'',
    map_path CONFIG_DIR opts path formula None conn wk = (wk'', mapping CONFIG_DIR opts c formula path)
    /\ same_fs wk'' wk'
    /\ extracted wk'' = extracted wk'
    /\ (logged wk'' = logged wk'
        \/ logged wk'' = (logged wk' ++ [(ERROR, node_type_not_set)])%list).
Proof.
  intros Hc. unfold mapping, map_path.
  rewrite (bind_ok _ _ _ _ _ Hc). cbn [conn_or_init].
  unfold getitem, raise, log, mbind, M_bind, mret, M_ret.
  repeat case_match; simplify_eq; try congruence; cbn;
    eexists; (split; [reflexivity|]); repeat split; auto.
Qed.


Variables (formula : gmap string string) (conn : option (gmap string string)).
Variables (w w1 : World) (c : gmap string string).
Hypothesis Hconn : conn_or_init opts conn w = (w1, inr c).
Hypothesis Hcomplete : conn_complete c.
Hypothesis Hname : is_Some (formula !! "name").

Lemma mapping_returns path :
  exists base_path file_path, mapping CONFIG_DIR opts c formula path = inr (base_path, file_path).
Proof.
  destruct (map_path_returns CONFIG_DIR opts path formula None (Some c) blank blank c
              eq_refl Hcomplete Hname) as (w' & b & f & H).
  exists b, f. unfold mapping. rewrite H. reflexivity.
Qed.

Lemma scan_step path wk :
  same_fs wk w \/ same_fs wk w1 ->
  exists wk2 log_mp,
    map_path CONFIG_DIR opts path formula None conn wk = (wk2, mapping CONFIG_DIR opts c formula path)
    /\ same_fs wk2 w1
    /\ extracted wk2 = extracted wk
    /\ logged wk2 = (logged wk ++ log_mp)%list
    /\ (log_mp = [] \/ log_mp = [(ERROR, node_type_not_set)]).
Proof.
  intros Hk.
  destruct (conn_or_init_later opts conn w w1 c Hconn wk Hk) as (wk' & Hc' & Hs' & Hl' & He').
  destruct (map_path_run path formula conn wk wk' c Hc')
    as (wk2 & Hrun & Hs2 & He2 & Hl2).
  destruct Hl2 as [Hl2|Hl2].
  - exists wk2, []. rewrite app_nil_r. repeat split; try congruence; auto.
    + destruct Hs2, Hs'; congruence.
    + destruct Hs2, Hs'; congruence.
  - exists wk2, [(ERROR, node_type_not_set)]. repeat split; try congruence; auto.
    + destruct Hs2, Hs'; congruence.
    + destruct Hs2, Hs'; congruence.
Qed.


Lemma node_type_not_set_not_exists_msg p : node_type_not_set <> exists_msg p.
Proof.
  intros H.
  assert (Py.endswith node_type_not_set " already exists, not installing" = true) as E
    by (apply endswith_iff; exists p; exact H).
  vm_compute in E. discriminate.
Qed.

Variable fc : bool.
Hypothesis Hforce : force opts = Some fc.

Lemma truthy_split (base_path file_path : option string) :
  negb (Py.truthy base_path) || negb (Py.truthy file_path) = false ->
  exists b f, base_path = Some b /\ file_path = Some f
              /\ nonempty b = true /\ nonempty f = true.
Proof.
  destruct base_path as [[|? ?]|], file_path as [[|? ?]|]; cbn; try discriminate.
  intros _. eauto 10.
Qed.

Lemma falsy_unresolved m base_path file_path :
  mapping CONFIG_DIR opts c formula (name m) = inr (base_path, file_path) ->
  negb (Py.truthy base_path) || negb (Py.truthy file_path) = true ->
  resolved_path CONFIG_DIR opts c formula m = None.
Proof.
  intros Hm. unfold resolved_path. rewrite Hm.
  destruct base_path as [[|? ?]|], file_path as [[|? ?]|]; cbn; try discriminate; reflexivity.
Qed.

Lemma check_existing_loop_spec package pkg_files : forall wk acc,
  same_fs wk w \/ same_fs wk w1 ->
  exists w' new,
    check_existing_loop CONFIG_DIR opts package pkg_files formula conn acc wk
    = (w', inr (acc ++ omap (conflict CONFIG_DIR opts c formula w1) pkg_files)%list)
    /\ (same_fs w' w \/ same_fs w' w1)
    /\ extracted w' = extracted wk
    /\ logged w' = (logged wk ++ new)%list
    /\ (forall m, m ∈ pkg_files -> isdir m = false -> resolved_path CONFIG_DIR opts c formula m = None ->
                  (WARNING, warn_msg m) ∈ new)
    /\ (fc = true -> forall p, (ERROR, exists_msg p) ∉ new)
    /\ (fc = false -> forall p, p ∈ omap (conflict CONFIG_DIR opts c formula w1) pkg_files ->
                      (ERROR, exists_msg p) ∈ new).
Proof.
  induction pkg_files as [|m rest IH]; intros wk acc Hk.
  - exists wk, []. cbn. rewrite !app_nil_r.
    repeat split; auto.
    + intros m Hin. apply elem_of_nil in Hin. contradiction.
    + intros _ p Hin. apply elem_of_nil in Hin. contradiction.
    + intros _ p Hin. apply elem_of_nil in Hin. contradiction.
  - cbn [check_existing_loop]. destruct (isdir m) eqn:Hdir.
    + destruct (IH wk acc Hk) as (w' & new & Hrun & Hs & He & Hl & Hw & Hf & Hnf).
      exists w', new.
      assert (conflict CONFIG_DIR opts c formula w1 m = None) as Hcm by (unfold conflict; rewrite Hdir; reflexivity).
      cbn [omap list_omap]. rewrite Hcm.
      repeat split; auto.
      intros m' Hin Hd' Hr. apply Hw; auto.
      apply elem_of_cons in Hin as [->|Hin]; [congruence | exact Hin].
    + unfold mbind at 1, M_bind at 1, log at 1.
      set (dbg := (DEBUG, "Checking if " +:+ package +:+ ":" +:+ name m
                           +:+ " is already installed ...")).
      destruct (scan_step (name m) (emit DEBUG (snd dbg) wk)) as
        (wk2 & log_mp & Hmp & Hs2 & He2 & Hl2 & Hlm).
      { destruct Hk as [Hk|Hk]; [left|right];
          (eapply same_fs_trans; [apply same_fs_emit | exact Hk]). }
      destruct (mapping_returns (name m)) as (base_path & file_path & Hmap).
      rewrite Hmap in Hmp.
      rewrite (bind_ok _ _ _ _ _ Hmp).
      destruct (negb (Py.truthy base_path) || negb (Py.truthy file_path)) eqn:Ht.
      * (* the member is skipped with a warning *)
        unfold mbind at 1, M_bind at 1, log at 1.
        destruct (IH (emit WARNING (name m +:+ " not in top level directory") wk2) acc)
          as (w' & new & Hrun & Hs & He & Hl & Hw & Hf & Hnf).
        { right. eapply same_fs_trans; [apply same_fs_emit | exact Hs2]. }
        pose proof (falsy_unresolved m _ _ Hmap Ht) as Hres.
        assert (conflict CONFIG_DIR opts c formula w1 m = None) as Hcm
            by (unfold conflict; rewrite Hdir, Hres; reflexivity).
        exists w', (dbg :: log_mp ++ (WARNING, warn_msg m) :: new)%list.
        cbn [omap list_omap]. rewrite Hcm.
        split; [exact Hrun|]. split; [exact Hs|].
        split; [rewrite He; cbn; rewrite He2; reflexivity|].
        split.
        { rewrite Hl. cbn. rewrite Hl2. cbn.
          rewrite <- !app_assoc. reflexivity. }
        split; [|split].
        { intros m' Hin Hd' Hr'. apply elem_of_cons in Hin as [->|Hin].
          - in_list.
          - specialize (Hw m' Hin Hd' Hr'). in_list. }
        { intros Hfc p Hin. specialize (Hf Hfc p).
          apply elem_of_cons in Hin as [Hin|Hin]; [discriminate Hin|].
          apply elem_of_app in Hin as [Hin|Hin].
          - destruct Hlm as [-> | ->]; [apply elem_of_nil in Hin; contradiction|].
            apply list_elem_of_singleton in Hin. injection Hin as Hin.
            symmetry in Hin. exact (node_type_not_set_not_exists_msg p Hin).
          - apply elem_of_cons in Hin as [Hin|Hin]; [discriminate Hin|]. auto. }
        { intros Hfc p Hin. specialize (Hnf Hfc p Hin). in_list. }
      * (* both halves are there and not empty *)
        destruct (truthy_split _ _ Ht) as (b & f & -> & -> & Hb & Hnf0).
        assert (resolved_path CONFIG_DIR opts c formula m = Some (b +:+ "/" +:+ f)) as Hres
            by (unfold resolved_path; rewrite Hmap, Hb, Hnf0; reflexivity).
        change (Py.join2 os_path_sep (Py.str (Some b)) (Py.str (Some f)))
          with (b +:+ "/" +:+ f).
        set (new_path := b +:+ "/" +:+ f) in *.
        unfold mbind at 1, M_bind at 1, os_path_exists at 1.
        assert (nodes wk2 = nodes w1) as Hnodes by apply Hs2.
        rewrite Hnodes.
        assert (conflict CONFIG_DIR opts c formula w1 m = if exists_in w1 new_path then Some new_path else None) as Hcm
            by (unfold conflict; rewrite Hdir, Hres; reflexivity).
        unfold exists_in in Hcm.
        destruct (nodes w1 !! new_path) as [nd|] eqn:Hex.
        -- (* the path exists *)
           rewrite Hforce.
           unfold mbind at 1, M_bind at 1, mret at 1, M_ret at 1.
           destruct fc eqn:Hfcv; cbn [negb].
           ++ unfold mbind at 1, M_bind at 1, mret at 1, M_ret at 1.
              destruct (IH wk2 (acc ++ [new_path])%list (or_intror Hs2))
                as (w' & new & Hrun & Hs & He & Hl & Hw & Hf & Hnf).
              exists w', (dbg :: log_mp ++ new)%list.
              cbn [omap list_omap]. rewrite Hcm.
              split; [rewrite Hrun, <- app_assoc; reflexivity|].
              split; [exact Hs|].
              split; [rewrite He, He2; reflexivity|].
              split; [rewrite Hl, Hl2; cbn; rewrite <- !app_assoc; reflexivity|].
              split; [|split].
              { intros m' Hin Hd' Hr'. apply elem_of_cons in Hin as [->|Hin].
                - congruence.
                - specialize (Hw m' Hin Hd' Hr'). in_list. }
              { intros _ p Hin. specialize (Hf eq_refl p).
                apply elem_of_cons in Hin as [Hin|Hin]; [discriminate Hin|].
                apply elem_of_app in Hin as [Hin|Hin]; [|auto].
                destruct Hlm as [-> | ->]; [apply elem_of_nil in Hin; contradiction|].
                apply list_elem_of_singleton in Hin. injection Hin as Hin.
                symmetry in Hin. exact (node_type_not_set_not_exists_msg p Hin). }
              { discriminate. }
           ++ unfold mbind at 1, M_bind at 1, log at 1.
              destruct (IH (emit ERROR (new_path +:+ " already exists, not installing") wk2)
                          (acc ++ [new_path])%list)
                as (w' & new & Hrun & Hs & He & Hl & Hw & Hf & Hnf).
              { right. eapply same_fs_trans; [apply same_fs_emit | exact Hs2]. }
              exists w', (dbg :: log_mp ++ (ERROR, exists_msg new_path) :: new)%list.
              cbn [omap list_omap]. rewrite Hcm.
              split; [rewrite Hrun, <- app_assoc; reflexivity|].
              split; [exact Hs|].
              split; [rewrite He; cbn; rewrite He2; reflexivity|].
              split; [rewrite Hl; cbn; rewrite Hl2; cbn; rewrite <- !app_assoc; reflexivity|].
              split; [|split].
              { intros m' Hin Hd' Hr'. apply elem_of_cons in Hin as [->|Hin].
                - congruence.
                - specialize (Hw m' Hin Hd' Hr'). in_list. }
              { discriminate. }
              { intros _ p Hin. apply elem_of_cons in Hin as [->|Hin].
                - in_list.
                - specialize (Hnf eq_refl p Hin). in_list. }
        -- (* the path does not exist *)
           destruct (IH wk2 acc (or_intror Hs2))
             as (w' & new & Hrun & Hs & He & Hl & Hw & Hf & Hnf).
           exists w', (dbg :: log_mp ++ new)%list.
           cbn [omap list_omap]. rewrite Hcm.
           split; [exact Hrun|]. split; [exact Hs|].
           split; [rewrite He, He2; reflexivity|].
           split; [rewrite Hl, Hl2; cbn; rewrite <- !app_assoc; reflexivity|].
           split; [|split].
           { intros m' Hin Hd' Hr'. apply elem_of_cons in Hin as [->|Hin].
             - congruence.
             - specialize (Hw m' Hin Hd' Hr'). in_list. }
           { intros Hfc p Hin. specialize (Hf Hfc p).
             apply elem_of_cons in Hin as [Hin|Hin]; [discriminate Hin|].
             apply elem_of_app in Hin as [Hin|Hin]; [|auto].
             destruct Hlm as [-> | ->]; [apply elem_of_nil in Hin; contradiction|].
             apply list_elem_of_singleton in Hin. injection Hin as Hin.
             symmetry in Hin. exact (node_type_not_set_not_exists_msg p Hin). }
           { intros Hfc p Hin. specialize (Hnf Hfc p Hin). in_list. }
Qed.


(** C6, with the test the code applies: [check_existing] returns, in the
    order of the members, the resolved paths (base, separator, relative
    path) of the members that are not directories, whose mapping gives a
    base and a relative path that are both determined and not empty, and
    whose resolved path exists.  A path is returned whether [force] is set
    or not: [force] only decides whether the error about the path is
    logged.  A member whose mapping is undetermined (or has an empty half)
    gets a warning and contributes nothing. *)
Theorem check_existing_conflicts package pkg_files :
  exists w' new,
    check_existing CONFIG_DIR opts package pkg_files formula conn w
    = (w', inr (omap (conflict CONFIG_DIR opts c formula w1) pkg_files))
    /\ (same_fs w' w \/ same_fs w' w1)
    /\ extracted w' = extracted w
    /\ logged w' = (logged w ++ new)%list
    /\ (forall m, m ∈ pkg_files -> isdir m = false -> resolved_path CONFIG_DIR opts c formula m = None ->
                  (WARNING, warn_msg m) ∈ new)
    /\ (fc = true -> forall p, (ERROR, exists_msg p) ∉ new)
    /\ (fc = false -> forall p, p ∈ omap (conflict CONFIG_DIR opts c formula w1) pkg_files ->
                      (ERROR, exists_msg p) ∈ new).
Proof.
  apply (check_existing_loop_spec package pkg_files w []).
  left. apply same_fs_refl.
Qed.

End Scan.

Section Install.

Variable CONFIG_DIR : string.
Variable opts : Opts.

Lemma map_path_extracted path formula parent_dir conn w w1 r :
  map_path CONFIG_DIR opts path formula parent_dir conn w = (w1, r) ->
  extracted w1 = extracted w.
Proof.
  unfold map_path. unfold mbind at 1, M_bind at 1.
  assert (extracted (fst (conn_or_init opts conn w)) = extracted w) as He.
  { destruct conn; [reflexivity|].
    apply (init_fs_only opts w w (same_fs_refl w)). }
  destruct (conn_or_init opts conn w) as [w0 [e|c]]; cbn in He.
  - intros H. injection H as <- _. exact He.
  - unfold getitem, raise, log, mbind, M_bind, mret, M_ret.
    intros H. repeat case_match; simplify_eq; cbn; exact He.
Qed.

(** C5, with the test the code applies: when the name of the member is the
    package identifier, [install_file] returns False and leaves the world
    as it was; when [map_path] gives a base or a relative path that is
    undetermined or empty, it logs a warning and returns False, nothing
    being extracted; otherwise it renames the member to the relative path,
    extracts that one member into the base directory, and returns the base
    directory. *)
Theorem install_file_spec package formula_tar member formula_def conn w :
  (name member = package ->
   install_file CONFIG_DIR opts package formula_tar member formula_def conn w
   = (w, inr (NotInstalled, member)))
  /\ (name member <> package ->
      forall w1 base_path file_path,
        map_path CONFIG_DIR opts (name member) formula_def None conn w
        = (w1, inr (base_path, file_path)) ->
        extracted w1 = extracted w
        /\ (base_path = None \/ base_path = Some EmptyString
            \/ file_path = None \/ file_path = Some EmptyString ->
            install_file CONFIG_DIR opts package formula_tar member formula_def conn w
            = (emit WARNING (name member +:+ " not in top level directory, not installing") w1,
               inr (NotInstalled, member)))
        /\ (forall b f,
            base_path = Some b -> file_path = Some f ->
            b <> EmptyString -> f <> EmptyString ->
            install_file CONFIG_DIR opts package formula_tar member formula_def conn w
            = (mkWorld (nodes w1) (faults w1)
                 (logged w1 ++ [(DEBUG, "Installing package file " +:+ f
                                         +:+ " to " +:+ b +:+ "/" +:+ f)])
                 (extracted w1 ++ [(formula_tar, mkMember f (isdir member), b)]),
               inr (InstalledTo b, mkMember f (isdir member))))).
Proof.
  split.
  - intros Heq. unfold install_file.
    apply String.eqb_eq in Heq. rewrite Heq. reflexivity.
  - intros Hne w1 base_path file_path Hmp.
    split; [eapply map_path_extracted; exact Hmp|].
    apply String.eqb_neq in Hne.
    split.
    + intros Hfalsy. unfold install_file. rewrite Hne.
      rewrite (bind_ok _ _ _ _ _ Hmp).
      assert (negb (Py.truthy base_path) || negb (Py.truthy file_path) = true) as ->.
      { destruct Hfalsy as [-> | [-> | [-> | ->]]]; cbn;
          rewrite ?orb_true_r; reflexivity. }
      reflexivity.
    + intros b f -> -> Hb Hf. unfold install_file. rewrite Hne.
      rewrite (bind_ok _ _ _ _ _ Hmp).
      destruct b as [|b0 b]; [congruence|]. destruct f as [|f0 f]; [congruence|].
      reflexivity.
Qed.

End Install.

(** ** Worked instances *)

Lemma sample_conn_complete : conn_complete sample_conn.
Proof. repeat split; eexists; reflexivity. Qed.

Lemma apache_named : is_Some (apache !! "name").
Proof. eexists; reflexivity. Qed.

Lemma not_ends_with (s suf : string) : Py.endswith s suf = false -> ~ ends_with s suf.
Proof. intros E H. apply endswith_iff in H. congruence. Qed.

(** A path outside [apache/], and the manifest of the formula. *)
Lemma map_path_outside_or_manifest_witness :
  map_path etc_salt opts_master "nginx/README" apache None (Some sample_conn) blank
  = (blank, inr (None, None))
  /\ map_path etc_salt opts_no_role "apache/FORMULA" apache_conf (Some "apache/")
       (Some sample_conn) blank
     = (blank, inr (None, None)).
Proof.
  split.
  - pose proof (map_path_outside_or_manifest etc_salt opts_master "nginx/README"
                  apache None (Some sample_conn) blank blank sample_conn eq_refl)
      as (_ & _ & Hout & _).
    exact (Hout eq_refl).
  - pose proof (map_path_outside_or_manifest etc_salt opts_no_role "apache/FORMULA"
                  apache_conf (Some "apache/") (Some sample_conn) blank blank
                  sample_conn eq_refl)
      as (_ & _ & _ & Hman).
    exact (Hman (ex_intro _ "/f" eq_refl) eq_refl).
Defined.

(** A pillar file, with one slash and with three. *)
Lemma map_path_pillar_prefix_witness :
  map_path etc_salt opts_master "apache/_pillar/x/y.sls" apache None (Some sample_conn) blank
  = (blank, inr (Some "/p", Some "x/y.sls"))
  /\ exists n relative,
      "//x.sls" = slashes n +:+ relative
      /\ Py.startswith relative "/" = false
      /\ map_path etc_salt opts_master "apache/_pillar///x.sls" apache None
           (Some sample_conn) blank
         = (blank, inr (Some "/p", Some relative)).
Proof.
  pose proof (map_path_pillar_prefix etc_salt opts_master "//x.sls" apache None
                (Some sample_conn) blank blank sample_conn "/f" "/p"
                eq_refl eq_refl eq_refl) as [Hgen Hxy].
  split; [exact Hxy | exact Hgen].
Defined.

(** A module file, with the role master and with no role. *)
Lemma map_path_module_file_witness :
  map_path etc_salt opts_master "apache/_modname/file.py" apache None (Some sample_conn) blank
  = (blank, inr (Some "/m", Some "modname/file.py"))
  /\ map_path etc_salt opts_no_role "apache/_modname/file.py" apache None
       (Some sample_conn) blank
     = (emit ERROR node_type_not_set blank, inr (None, None)).
Proof.
  split.
  - pose proof (map_path_module_file etc_salt opts_master "modname/file.py" apache None
                  (Some sample_conn) blank blank sample_conn "/f"
                  eq_refl eq_refl eq_refl) as [Hknown _].
    exact (Hknown "/m" (or_introl eq_refl) eq_refl).
  - pose proof (map_path_module_file etc_salt opts_no_role "modname/file.py" apache None
                  (Some sample_conn) blank blank sample_conn "/f"
                  eq_refl eq_refl eq_refl) as [_ Hunknown].
    apply Hunknown; intros H; vm_compute in H; discriminate H.
Defined.

(** The remainder [_pillar], with the role master and with no role. *)
Lemma map_path_bare_pillar_witness :
  map_path etc_salt opts_master "apache/_pillar" apache None (Some sample_conn) blank
  = (blank, inr (Some "/m", Some "pillar"))
  /\ map_path etc_salt opts_no_role "apache/_pillar" apache None (Some sample_conn) blank
     = (emit ERROR node_type_not_set blank, inr (None, None)).
Proof.
  split.
  - pose proof (map_path_bare_pillar etc_salt opts_master apache None
                  (Some sample_conn) blank blank sample_conn "/f" eq_refl eq_refl)
      as (_ & Hknown & _).
    exact (Hknown "/m" (or_introl eq_refl) eq_refl).
  - pose proof (map_path_bare_pillar etc_salt opts_no_role apache None
                  (Some sample_conn) blank blank sample_conn "/f" eq_refl eq_refl)
      as (_ & _ & Hunknown).
    apply Hunknown; intros H; vm_compute in H; discriminate H.
Defined.

(** One member path for each of the four last rules, and a pillar file of
    a formula whose name ends with [-conf]. *)
Lemma map_path_ordinary_file_witness :
  map_path etc_salt opts_master "apache/pillar.example" apache None (Some sample_conn) blank
  = (blank, inr (Some "/p", Some "apache.sls.orig"))
  /\ map_path etc_salt opts_master "apache-conf/minion.d/x.conf" apache_conf None
       (Some sample_conn) blank
     = (blank, inr (Some "/etc/salt", Some "minion.d/x.conf"))
  /\ map_path etc_salt opts_master "apache-reactor/react.sls" apache_reactor None
       (Some sample_conn) blank
     = (blank, inr (Some "/r", Some "react.sls"))
  /\ map_path etc_salt opts_master "apache/README" apache None (Some sample_conn) blank
     = (blank, inr (Some "/f", Some "README"))
  /\ map_path etc_salt opts_master "apache-conf/_pillar/x.sls" apache_conf None
       (Some sample_conn) blank
     = (blank, inr (Some "/p", Some "x.sls")).
Proof.
  assert ("pillar.example" <> "FORMULA") as N1 by discriminate.
  assert ("minion.d/x.conf" <> "FORMULA") as N2 by discriminate.
  assert ("react.sls" <> "FORMULA") as N3 by discriminate.
  assert ("README" <> "FORMULA") as N4 by discriminate.
  split; [|split; [|split; [|split]]].
  - pose proof (map_path_ordinary_file etc_salt opts_master "pillar.example" apache None
                  (Some sample_conn) blank blank sample_conn "/f" "apache"
                  eq_refl eq_refl eq_refl N1 eq_refl eq_refl) as (H & _).
    exact (H eq_refl "/p" eq_refl).
  - pose proof (map_path_ordinary_file etc_salt opts_master "minion.d/x.conf" apache_conf
                  None (Some sample_conn) blank blank sample_conn "/f" "apache-conf"
                  eq_refl eq_refl eq_refl N2 eq_refl eq_refl) as (_ & H & _).
    apply H; [discriminate | exists "apache"; reflexivity].
  - pose proof (map_path_ordinary_file etc_salt opts_master "react.sls" apache_reactor
                  None (Some sample_conn) blank blank sample_conn "/f" "apache-reactor"
                  eq_refl eq_refl eq_refl N3 eq_refl eq_refl) as (_ & _ & H & _).
    apply H; [discriminate | apply not_ends_with; reflexivity
              | exists "apache"; reflexivity | reflexivity].
  - pose proof (map_path_ordinary_file etc_salt opts_master "README" apache
                  None (Some sample_conn) blank blank sample_conn "/f" "apache"
                  eq_refl eq_refl eq_refl N4 eq_refl eq_refl) as (_ & _ & _ & H & _).
    apply H; [discriminate | apply not_ends_with; reflexivity
              | apply not_ends_with; reflexivity].
  - pose proof (map_path_ordinary_file etc_salt opts_master "README" apache_conf
                  None (Some sample_conn) blank blank sample_conn "/f" "apache-conf"
                  eq_refl eq_refl eq_refl N4 eq_refl eq_refl) as (_ & _ & _ & _ & H).
    apply (H (ex_intro _ "apache" eq_refl) "x.sls" "/p" eq_refl).
Defined.

(** The pair returned for [apache/README], and a call that returns. *)
Lemma map_path_all_or_nothing_witness :
  ((Some "/f" = None /\ Some "README" = None)
   \/ (is_Some (Some "/f") /\ is_Some (Some "README")))
  /\ exists w' base_path file_path,
      map_path etc_salt opts_no_role "apache/_x" apache None (Some sample_conn) blank
      = (w', inr (base_path, file_path)).
Proof.
  split.
  - exact (proj1 (map_path_all_or_nothing etc_salt opts_master "apache/README" apache
                    None (Some sample_conn) blank)
             blank (Some "/f") (Some "README") eq_refl).
  - exact (proj2 (map_path_all_or_nothing etc_salt opts_no_role "apache/_x" apache
                    None (Some sample_conn) blank)
             blank sample_conn eq_refl sample_conn_complete apache_named).
Defined.

(** Removing a file, a path that is not there, and a directory. *)
Lemma remove_file_spec_witness :
  (remove_file opts_master "/tmp/file1" (Some sample_conn) world_installed
   = (set_nodes (delete "/tmp/file1")
        (emit DEBUG "Removing package file /tmp/file1" world_installed), inr tt)
   /\ path_exists "/tmp/file1"
        (set_nodes (delete "/tmp/file1")
           (emit DEBUG "Removing package file /tmp/file1" world_installed))
      = (set_nodes (delete "/tmp/file1")
           (emit DEBUG "Removing package file /tmp/file1" world_installed), inr false))
  /\ remove_file opts_master "/tmp/file2" (Some sample_conn) world_installed
     = (emit DEBUG "Removing package file /tmp/file2" world_installed, inr tt)
  /\ remove_file opts_master "/m/" (Some sample_conn) world_installed
     = (emit DEBUG "Removing package file /m/" world_installed,
        inl (OSError (OSErr (Some EISDIR) "Is a directory"))).
Proof.
  split; [|split].
  - pose proof (remove_file_spec opts_master "/tmp/file1" (Some sample_conn)
                  world_installed world_installed sample_conn eq_refl)
      as (Hfile & Hdel & _).
    destruct (Hdel _ eq_refl) as (_ & _ & Hgone).
    split; [exact (Hfile _ eq_refl eq_refl) | exact Hgone].
  - pose proof (remove_file_spec opts_master "/tmp/file2" (Some sample_conn)
                  world_installed world_installed sample_conn eq_refl)
      as (_ & _ & Hmissing & _).
    exact (Hmissing eq_refl eq_refl).
  - pose proof (remove_file_spec opts_master "/m/" (Some sample_conn)
                  world_installed world_installed sample_conn eq_refl)
      as (_ & _ & _ & _ & Hother).
    apply (Hother _ _ eq_refl). discriminate.
Defined.

(** Hashing a directory, a path that is not there, a file that cannot be
    read, and a file of four bytes. *)
Lemma hash_file_spec_witness :
  hash_file nat count_update count_hexdigest "/m/" 0%nat None world_installed
  = (world_installed, inr (EmptyString, 0%nat))
  /\ hash_file nat count_update count_hexdigest "/tmp/file2" 0%nat None world_installed
     = (world_installed, inr (EmptyString, 0%nat))
  /\ hash_file nat count_update count_hexdigest "/tmp/locked" 0%nat None world_locked
     = (world_locked, inl (OSError (OSErr (Some EACCES) "Permission denied")))
  /\ hash_file nat count_update count_hexdigest "/tmp/file1" 0%nat None world_installed
     = (world_installed, inr ("1111", 4%nat)).
Proof.
  split; [|split; [|split]].
  - pose proof (hash_file_spec nat count_update count_hexdigest "/m/" 0%nat None
                  world_installed) as (Hdir & _).
    exact (Hdir eq_refl).
  - pose proof (hash_file_spec nat count_update count_hexdigest "/tmp/file2" 0%nat None
                  world_installed) as (_ & Hmissing & _).
    exact (Hmissing eq_refl eq_refl).
  - pose proof (hash_file_spec nat count_update count_hexdigest "/tmp/locked" 0%nat None
                  world_locked) as (_ & _ & Hfail & _).
    assert (nodes world_locked !! "/tmp/locked" <> Some Dir) as Hnd
        by (intros H; vm_compute in H; discriminate H).
    destruct (Hfail _ _ Hnd eq_refl) as [_ Hother].
    apply Hother. discriminate.
  - pose proof (hash_file_spec nat count_update count_hexdigest "/tmp/file1" 0%nat None
                  world_installed) as (_ & _ & _ & Hcontent).
    destruct (Hcontent (list_byte_of_string "text") 4%nat eq_refl eq_refl eq_refl)
      as [Hrun _].
    exact Hrun.
Defined.

(** Scanning an archive of the formula when [/f/README] is installed: with
    the connection given, and with none, in which case [init] runs for each
    member that is not a directory and the paths are looked up in the world
    it leaves. *)
Lemma check_existing_conflicts_witness :
  (exists w' new,
      check_existing etc_salt opts_master "apache"
        [member_dir; member_readme; member_manifest; member_module] apache
        (Some sample_conn) world_installed
      = (w', inr ["/f/README"])
      /\ nodes w' = nodes world_installed
      /\ extracted w' = extracted world_installed
      /\ logged w' = (logged world_installed ++ new)%list
      /\ (WARNING, warn_msg member_manifest) ∈ new
      /\ (ERROR, exists_msg "/f/README") ∈ new)
  /\ (exists w' new,
      check_existing etc_salt opts_dirs "apache" [member_readme; member_manifest] apache
        None world_installed
      = (w', inr ["/f/README"])
      /\ logged w' = (logged world_installed ++ new)%list
      /\ (ERROR, exists_msg "/f/README") ∈ new).
Proof.
  split.
  - destruct (check_existing_conflicts etc_salt opts_master apache (Some sample_conn)
                world_installed world_installed sample_conn eq_refl
                sample_conn_complete apache_named false eq_refl "apache"
                [member_dir; member_readme; member_manifest; member_module])
      as (w' & new & Hrun & Hfs & Hex & Hlog & Hwarn & _ & Herr).
    exists w', new.
    split; [exact Hrun|].
    split; [destruct Hfs as [[Hn _]|[Hn _]]; exact Hn|].
    split; [exact Hex|]. split; [exact Hlog|]. split.
    + apply Hwarn; [|reflexivity|reflexivity].
      apply elem_of_cons; right. apply elem_of_cons; right.
      apply elem_of_cons; left. reflexivity.
    + apply (Herr eq_refl). apply elem_of_cons; left. reflexivity.
  - destruct (check_existing_conflicts etc_salt opts_dirs apache None
                world_installed (fst (init opts_dirs world_installed)) sample_conn
                eq_refl sample_conn_complete apache_named false eq_refl "apache"
                [member_readme; member_manifest])
      as (w' & new & Hrun & _ & _ & Hlog & _ & _ & Herr).
    exists w', new. split; [exact Hrun|]. split; [exact Hlog|].
    apply (Herr eq_refl). apply elem_of_cons; left. reflexivity.
Defined.

(** Installing a module file, the package itself, and the manifest. *)
Lemma install_file_spec_witness :
  install_file etc_salt opts_master "apache" "apache.spm" member_module apache
    (Some sample_conn) blank
  = (mkWorld ∅ ∅ [(DEBUG, "Installing package file README to /m/README")]
       [("apache.spm", mkMember "README" false, "/m")],
     inr (InstalledTo "/m", mkMember "README" false))
  /\ install_file etc_salt opts_master "apache" "apache.spm" member_dir apache
       (Some sample_conn) blank
     = (blank, inr (NotInstalled, member_dir))
  /\ install_file etc_salt opts_master "apache" "apache.spm" member_manifest apache
       (Some sample_conn) blank
     = (emit WARNING "apache/FORMULA not in top level directory, not installing" blank,
        inr (NotInstalled, member_manifest)).
Proof.
  split; [|split].
  - pose proof (install_file_spec etc_salt opts_master "apache" "apache.spm"
                  member_module apache (Some sample_conn) blank) as [_ H].
    assert (name member_module <> "apache") as Hne by discriminate.
    destruct (H Hne blank (Some "/m") (Some "README") eq_refl) as (_ & _ & Hinst).
    apply (Hinst "/m" "README" eq_refl eq_refl); discriminate.
  - pose proof (install_file_spec etc_salt opts_master "apache" "apache.spm"
                  member_dir apache (Some sample_conn) blank) as [H _].
    exact (H eq_refl).
  - pose proof (install_file_spec etc_salt opts_master "apache" "apache.spm"
                  member_manifest apache (Some sample_conn) blank) as [_ H].
    assert (name member_manifest <> "apache") as Hne by discriminate.
    destruct (H Hne blank None None eq_refl) as (_ & Hskip & _).
    exact (Hskip (or_introl eq_refl)).
Defined.

(** ** Where the code departs from the documented behaviour *)

(** The member [apache/_] is not the package and is mapped, with the role
    master, to a determined base and a determined relative path; the
    relative path is empty, and [install_file] refuses the member with a
    warning instead of extracting it and returning the base directory. *)
Lemma install_file_counterexample :
  String.eqb (name member_underscore) "apache" = false
  /\ map_path etc_salt opts_master (name member_underscore) apache None
       (Some sample_conn) blank
     = (blank, inr (Some "/m", Some EmptyString))
  /\ install_file etc_salt opts_master "apache" "apache.spm" member_underscore apache
       (Some sample_conn) blank
     = (emit WARNING "apache/_ not in top level directory, not installing" blank,
        inr (NotInstalled, member_underscore))
  /\ extracted
       (fst (install_file etc_salt opts_master "apache" "apache.spm" member_underscore
               apache (Some sample_conn) blank))
     = [].
Proof. repeat split. Qed.

(** The same member is not a directory, its mapping is determined, and the
    path it resolves to exists; [check_existing] does not return the path:
    it logs the warning and skips the member. *)
Lemma check_existing_counterexample :
  isdir member_underscore = false
  /\ map_path etc_salt opts_master (name member_underscore) apache None
       (Some sample_conn) world_installed
     = (world_installed, inr (Some "/m", Some EmptyString))
  /\ path_exists ("/m" +:+ os_path_sep +:+ EmptyString) world_installed
     = (world_installed, inr true)
  /\ check_existing etc_salt opts_master "apache" [member_underscore] apache
       (Some sample_conn) world_installed
     = (emit WARNING "apache/_ not in top level directory"
          (emit DEBUG "Checking if apache:apache/_ is already installed ..."
             world_installed),
        inr []).
Proof. repeat split. Qed.

(** ** The unit tests of the module, run on the embedding *)

(** [test_install_file] passes a connection that has the formula
    directory only; looking up the module directory then fails. *)
Example test_install_file_partial_conn :
  install_file etc_salt opts_master "apache" "apache.spm" member_module apache
    (Some (<["formula_path" := "/tmp/test"]> ∅)) blank
  = (blank, inl (KeyError "spm_module_path")).
Proof. reflexivity. Qed.

(** [test_hash_file_raises_exc]: an [update] that raises an error whose
    errno is 0. *)
Example test_hash_file_raises_exc :
  hash_file nat (fun _ _ => inl (OSError (OSErr (Some 0%Z) "exc"))) count_hexdigest
    "/tmp/file1" 0%nat None world_installed
  = (world_installed, inl (OSError (OSErr (Some 0%Z) "exc"))).
Proof. reflexivity. Qed.

(** [test_remove_file_raises_exc]: an error built from a message only has
    no errno, and is raised again. *)
Example test_remove_file_raises_exc :
  remove_file opts_master "/tmp/file1" (Some sample_conn)
    (mkWorld ∅ (<["/tmp/file1" := OSErr None "exc"]> ∅) [] [])
  = (emit DEBUG "Removing package file /tmp/file1"
       (mkWorld ∅ (<["/tmp/file1" := OSErr None "exc"]> ∅) [] []),
     inl (OSError (OSErr None "exc"))).
Proof. reflexivity. Qed.

(** With no connection given, [remove_file] first creates the four
    directories. *)
Example remove_file_creates_directories :
  nodes (fst (remove_file opts_dirs "/tmp/file2" None blank))
  = <["/m" := Dir]> (<["/r" := Dir]> (<["/p" := Dir]> (<["/f" := Dir]> ∅))).
Proof. vm_compute. reflexivity. Qed.

(** ** Further properties of the package-file backend *)

Lemma string_app_assoc (a b c : string) : (a +:+ b) +:+ c = a +:+ (b +:+ c).
Proof. induction a as [|x a IH]; [reflexivity|]. rewrite !app_cons. congruence. Qed.

Lemma tail_of_refl s : tail_of s s.
Proof. exists EmptyString. reflexivity. Qed.

Lemma tail_of_trans a b c : tail_of a b -> tail_of b c -> tail_of a c.
Proof.
  intros [p ->] [q ->]. exists (q +:+ p). symmetry. apply string_app_assoc.
Qed.

Lemma slice_from_tail n s : tail_of (Py.slice_from n s) s.
Proof. exact (slice_from_split n s). Qed.

Lemma skip_slashes_tail s : tail_of (Py.skip_slashes s) s.
Proof. destruct (skip_slashes_spec s) as (n & H & _). exists (slashes n). exact H. Qed.

Lemma replace_first_tail old s :
  Py.startswith s old = true -> tail_of (Py.replace_first old EmptyString s) s.
Proof.
  intros H. rewrite replace_first_unfold, H. apply slice_from_tail.
Qed.

Lemma re_sub_pillar_tail s : tail_of (Py.re_sub_pillar s) s.
Proof.
  unfold Py.re_sub_pillar. destruct (Py.startswith s "_pillar/"); [|apply tail_of_refl].
  eapply tail_of_trans; [apply skip_slashes_tail | apply slice_from_tail].
Qed.

Lemma startswith_longer (s t : string) (a : ascii) :
  Py.startswith s (s +:+ String a t) = false.
Proof.
  induction s as [|b s IH]; [reflexivity|].
  rewrite app_cons.
  change (Ascii.eqb b b && Py.startswith s (s +:+ String a t) = false).
  rewrite IH. apply andb_false_r.
Qed.

Lemma startswith_pillar_underscore t :
  Py.startswith t "_" = false -> Py.startswith t "_pillar/" = false.
Proof.
  destruct t as [|a t]; [reflexivity|].
  change (Ascii.eqb "_" a && true = false ->
          Ascii.eqb "_" a && Py.startswith t "pillar/" = false).
  destruct (Ascii.eqb "_" a); [discriminate | reflexivity].
Qed.

Section MapPathProps.

Variable CONFIG_DIR : string.
Variable opts : Opts.

(** X5: given a connection, [map_path] reads and writes no file and calls
    no archive: the world it leaves differs from the one it found by at
    most the one error record about the node role, logged only when the
    result is (None, None); and its outcome is the same in every world. *)
Theorem map_path_explicit_conn_frame path formula parent_dir c w w' r :
  map_path CONFIG_DIR opts path formula parent_dir (Some c) w = (w', r) ->
  nodes w' = nodes w /\ faults w' = faults w /\ extracted w' = extracted w
  /\ (logged w' = logged w
      \/ (logged w' = (logged w ++ [(ERROR, node_type_not_set)])%list
          /\ r = inr (None, None)))
  /\ forall w2, snd (map_path CONFIG_DIR opts path formula parent_dir (Some c) w2) = r.
Proof.
  unfold map_path. cbn [conn_or_init].
  unfold getitem, raise, log, mbind, M_bind, mret, M_ret.
  intros H. repeat case_match; simplify_eq; cbn; auto 10.
  all: congruence.
Qed.

(** X6: the formula directory is looked up for every member path under the
    prefix, before the rules are tried: with a connection that has no
    [formula_path], [map_path] raises [KeyError] whatever the remainder,
    also for FORMULA and for pillar and module files, which do not go to
    the formula directory. *)
Theorem map_path_missing_formula_path trimmed formula parent_dir conn w w1 c :
  conn_or_init opts conn w = (w1, inr c) ->
  c !! "formula_path" = None ->
  map_path CONFIG_DIR opts (expected_prefix formula parent_dir +:+ trimmed)
    formula parent_dir conn w
  = (w1, inl (KeyError "formula_path")).
Proof.
  intros Hc Hf. unfold map_path. rewrite (bind_ok _ _ _ _ _ Hc).
  rewrite startswith_app. cbn [negb].
  apply bind_raise. apply getitem_raise. exact Hf.
Qed.

(** X7: the name of the formula is optional for the prefix only.  For a
    formula with no [name], a remainder that is not FORMULA and does not
    start with an underscore makes [map_path] raise [KeyError] for [name]:
    the rules on [pillar.example] and on the name's suffix index it. *)
Theorem map_path_nameless_formula trimmed formula parent_dir conn w w1 c fdir :
  conn_or_init opts conn w = (w1, inr c) ->
  c !! "formula_path" = Some fdir ->
  formula !! "name" = None ->
  trimmed <> "FORMULA" ->
  Py.startswith trimmed "_" = false ->
  (trimmed = "pillar.example" -> is_Some (c !! "pillar_path")) ->
  map_path CONFIG_DIR opts (expected_prefix formula parent_dir +:+ trimmed)
    formula parent_dir conn w
  = (w1, inl (KeyError "name")).
Proof.
  intros Hc Hf Hn Hman Hnu Hp. unfold map_path. rewrite (bind_ok _ _ _ _ _ Hc).
  rewrite startswith_app, replace_first_app. cbn [negb].
  rewrite (bind_ok _ _ _ _ _ (getitem_ok _ _ _ _ Hf)).
  rewrite (eqb_false _ _ Hman), (startswith_pillar_underscore _ Hnu), Hnu.
  destruct (String.eqb_spec trimmed "pillar.example") as [E|E].
  - destruct (Hp E) as [pdir Hpd].
    rewrite (bind_ok _ _ _ _ _ (getitem_ok _ _ _ _ Hpd)).
    apply bind_raise. apply getitem_raise. exact Hn.
  - apply bind_raise. apply getitem_raise. exact Hn.
Qed.

(** X8: a determined result is made of what [map_path] was given: the base
    is the configuration directory or one of the four directories of the
    connection, and the relative path is a tail of the member path, or the
    name of the formula followed by [.sls.orig]. *)
Theorem map_path_provenance path formula parent_dir conn w w1 c w' base_path file_path :
  conn_or_init opts conn w = (w1, inr c) ->
  map_path CONFIG_DIR opts path formula parent_dir conn w
  = (w', inr (Some base_path, Some file_path)) ->
  (base_path = CONFIG_DIR
   \/ exists k, k ∈ ["formula_path"; "pillar_path"; "reactor_path"; "spm_module_path"]
                /\ c !! k = Some base_path)
  /\ (tail_of file_path path
      \/ exists nm, formula !! "name" = Some nm /\ file_path = nm +:+ ".sls.orig").
Proof.
  intros Hc H. unfold map_path in H. rewrite (bind_ok _ _ _ _ _ Hc) in H.
  destruct (Py.startswith path (expected_prefix formula parent_dir)) eqn:Hs;
    cbn [negb] in H; [|discriminate].
  pose proof (replace_first_tail _ _ Hs) as Ht.
  set (trimmed := Py.replace_first (expected_prefix formula parent_dir) EmptyString path) in *.
  unfold getitem, raise, log, mbind, M_bind, mret, M_ret in H.
  repeat case_match; simplify_eq;
    (split;
     [first [ left; reflexivity
            | right; eexists; (split; [|eassumption]); rewrite !elem_of_cons; auto 10 ]
     |]);
    try (left; exact Ht); eauto.
  - left. eapply tail_of_trans; [apply re_sub_pillar_tail | exact Ht].
  - left. eapply tail_of_trans; [apply slice_from_tail | exact Ht].
Qed.

(** X9: the entry of the top-level directory itself, whose path is the
    top-level directory without a slash, does not start with the expected
    prefix: with no [parent_dir], it maps to (None, None). *)
Theorem map_path_top_level_entry formula conn w w1 c :
  conn_or_init opts conn w = (w1, inr c) ->
  map_path CONFIG_DIR opts (top_level_or_name formula) formula None conn w
  = (w1, inr (None, None)).
Proof.
  intros Hc. unfold map_path. rewrite (bind_ok _ _ _ _ _ Hc).
  assert (expected_prefix formula None = top_level_or_name formula +:+ "/") as ->.
  { unfold expected_prefix, top_level_or_name. cbn.
    destruct (formula !! "top_level_dir"); [reflexivity|].
    destruct (formula !! "name"); reflexivity. }
  rewrite startswith_longer. reflexivity.
Qed.

End MapPathProps.


(** Where a failure of [ensure_dirs] comes from. *)
Lemma ensure_dirs_fails dirs : forall w w' e,
  ensure_dirs dirs w = (w', inl e) ->
  exists d err, d ∈ dirs /\ e = OSError err
                /\ faults w !! d = Some err /\ nodes w !! d = None.
Proof.
  induction dirs as [|d dirs IH]; intros w w' e H.
  - discriminate H.
  - cbn [ensure_dirs] in H.
    unfold mbind, M_bind, os_path_exists, os_makedirs, mret, M_ret in H.
    destruct (nodes w !! d) as [n0|] eqn:Hd; cbn [negb] in H.
    + destruct (IH _ _ _ H) as (d' & err & Hin & -> & Hf & Hn).
      exists d', err. repeat split; auto. apply elem_of_cons. auto.
    + destruct (faults w !! d) as [err|] eqn:Hfd.
      * injection H as <- <-. exists d, err. repeat split; auto. apply elem_of_cons. auto.
      * rewrite Hd in H. destruct (IH _ _ _ H) as (d' & err & Hin & -> & Hf & Hn).
        exists d', err. cbn in Hf, Hn. repeat split; auto.
        -- apply elem_of_cons. auto.
        -- destruct (decide (d = d')) as [->|Hne].
           ++ rewrite lookup_insert_eq in Hn. discriminate.
           ++ rewrite lookup_insert_ne in Hn by assumption. exact Hn.
Qed.

Section InitProps.

Variable opts : Opts.


(** X2: calling [init] twice in a row is calling it once: the second call
    returns the same connection and changes nothing, and a failure of the
    first call is the failure of the pair. *)
Theorem init_twice w :
  (init opts ≫= λ _, init opts) w = init opts w.
Proof.
  destruct (init opts w) as [w1 [e|c]] eqn:H.
  - apply (bind_raise _ _ _ _ _ H).
  - rewrite (bind_ok _ _ _ _ _ H).
    apply (init_idempotent opts w w1 c H). split; reflexivity.
Qed.

(** X3: [init] reads the four settings before it creates anything: when
    one is missing it raises [KeyError] for the first missing one, in the
    order formula, pillar, reactor, module, and no directory has been
    created, not even for the settings that are there. *)
Theorem init_missing_setting w :
  (settings opts !! "formula_path" = None ->
   init opts w = (w, inl (KeyError "formula_path")))
  /\ (is_Some (settings opts !! "formula_path") ->
      settings opts !! "pillar_path" = None ->
      init opts w = (w, inl (KeyError "pillar_path")))
  /\ (is_Some (settings opts !! "formula_path") ->
      is_Some (settings opts !! "pillar_path") ->
      settings opts !! "reactor_path" = None ->
      init opts w = (w, inl (KeyError "reactor_path")))
  /\ (is_Some (settings opts !! "formula_path") ->
      is_Some (settings opts !! "pillar_path") ->
      is_Some (settings opts !! "reactor_path") ->
      settings opts !! "spm_module_path" = None ->
      init opts w = (w, inl (KeyError "spm_module_path"))).
Proof.
  unfold init, getitem, mbind, M_bind, mret, M_ret, raise.
  split; [|split; [|split]].
  - intros ->. reflexivity.
  - intros [f ->] ->. reflexivity.
  - intros [f ->] [p ->] ->. reflexivity.
  - intros [f ->] [p ->] [r ->] ->. reflexivity.
Qed.

(** X4: [init] fails in two ways only: with [KeyError] for a setting that
    is missing, the world being untouched, or with the [OSError] the system
    raised when a configured directory that did not exist was created.  It
    never fails on a directory that is already there. *)
Theorem init_failure w w' e :
  init opts w = (w', inl e) ->
  (exists k, e = KeyError k /\ settings opts !! k = None /\ w' = w
             /\ k ∈ ["formula_path"; "pillar_path"; "reactor_path"; "spm_module_path"])
  \/ (exists k d err,
        e = OSError err /\ settings opts !! k = Some d
        /\ k ∈ ["formula_path"; "pillar_path"; "reactor_path"; "spm_module_path"]
        /\ faults w !! d = Some err /\ nodes w !! d = None).
Proof.
  unfold init, getitem. intros H.
  destruct (settings opts !! "formula_path") as [f|] eqn:Hf;
    [|left; exists "formula_path"; injection H as <- <-; repeat split; auto;
      rewrite !elem_of_cons; auto].
  destruct (settings opts !! "pillar_path") as [p|] eqn:Hp;
    [|left; exists "pillar_path"; injection H as <- <-; repeat split; auto;
      rewrite !elem_of_cons; auto].
  destruct (settings opts !! "reactor_path") as [r|] eqn:Hr;
    [|left; exists "reactor_path"; injection H as <- <-; repeat split; auto;
      rewrite !elem_of_cons; auto].
  destruct (settings opts !! "spm_module_path") as [m|] eqn:Hm;
    [|left; exists "spm_module_path"; injection H as <- <-; repeat split; auto;
      rewrite !elem_of_cons; auto].
  right. unfold mbind, M_bind, mret, M_ret in H.
  destruct (ensure_dirs [f; p; r; m] w) as [w2 [e2|[]]] eqn:Hd; [|discriminate].
  injection H as <- <-.
  destruct (ensure_dirs_fails _ _ _ _ Hd) as (d & err & Hin & -> & Hfd & Hnd).
  rewrite !elem_of_cons in Hin.
  destruct Hin as [->|[->|[->|[->|Hin]]]].
  - exists "formula_path", f, err. rewrite !elem_of_cons. auto 10.
  - exists "pillar_path", p, err. rewrite !elem_of_cons. auto 10.
  - exists "reactor_path", r, err. rewrite !elem_of_cons. auto 10.
  - exists "spm_module_path", m, err. rewrite !elem_of_cons. auto 10.
  - apply elem_of_nil in Hin. contradiction.
Qed.

End InitProps.

Lemma init_conn_complete opts w w1 c :
  init opts w = (w1, inr c) -> conn_complete c.
Proof.
  unfold init, getitem. intros H.
  destruct (settings opts !! "formula_path") as [f|]; [|discriminate].
  destruct (settings opts !! "pillar_path") as [p|]; [|discriminate].
  destruct (settings opts !! "reactor_path") as [r|]; [|discriminate].
  destruct (settings opts !! "spm_module_path") as [m|]; [|discriminate].
  unfold mbind, M_bind, mret, M_ret in H.
  destruct (ensure_dirs [f; p; r; m] w) as [w' [e|[]]]; [discriminate|].
  injection H as _ <-. repeat split; eexists; reflexivity.
Qed.

Section ScanProps.

Variable CONFIG_DIR : string.
Variable opts : Opts.

(** X10: for an archive with no member, or with directories only,
    [check_existing] returns the empty list and leaves the world as it is:
    no connection is set up, nothing is logged, and no setting is read. *)
Theorem check_existing_only_directories package pkg_files formula conn w :
  Forall (fun m => isdir m = true) pkg_files ->
  check_existing CONFIG_DIR opts package pkg_files formula conn w = (w, inr []).
Proof.
  unfold check_existing. induction 1 as [|m rest Hm _ IH]; [reflexivity|].
  cbn [check_existing_loop]. rewrite Hm. exact IH.
Qed.

(** X11: members are scanned one by one: the conflicts of two lists of
    members put end to end are the conflicts of the first followed by the
    conflicts of the second. *)
Theorem check_existing_app package l1 l2 formula conn w w1 c fc :
  conn_or_init opts conn w = (w1, inr c) ->
  conn_complete c ->
  is_Some (formula !! "name") ->
  force opts = Some fc ->
  exists r1 r2,
    snd (check_existing CONFIG_DIR opts package l1 formula conn w) = inr r1
    /\ snd (check_existing CONFIG_DIR opts package l2 formula conn w) = inr r2
    /\ snd (check_existing CONFIG_DIR opts package (l1 ++ l2) formula conn w)
       = inr (r1 ++ r2)%list.
Proof.
  intros Hc Hcc Hn Hf.
  pose proof (fun l => check_existing_loop_spec CONFIG_DIR opts formula conn w w1 c
                         Hc Hcc Hn fc Hf package l w [] (or_introl (same_fs_refl w)))
    as Hspec.
  destruct (Hspec l1) as (wa & na & Ha & _).
  destruct (Hspec l2) as (wb & nb & Hb & _).
  destruct (Hspec (l1 ++ l2)%list) as (wc & nc & Hab & _).
  exists (omap (conflict CONFIG_DIR opts c formula w1) l1),
         (omap (conflict CONFIG_DIR opts c formula w1) l2).
  unfold check_existing. rewrite Ha, Hb, Hab. cbn.
  rewrite omap_app. auto.
Qed.

(** X12: leaving the connection out changes nothing to the scan: when
    [init] succeeds, [check_existing] with no connection returns what it
    returns with the connection of [init], run in the world [init] left. *)
Theorem check_existing_conn_optional package pkg_files formula w w1 c fc :
  init opts w = (w1, inr c) ->
  is_Some (formula !! "name") ->
  force opts = Some fc ->
  snd (check_existing CONFIG_DIR opts package pkg_files formula None w)
  = snd (check_existing CONFIG_DIR opts package pkg_files formula (Some c) w1).
Proof.
  intros Hi Hn Hf.
  pose proof (init_conn_complete _ _ _ _ Hi) as Hcc.
  destruct (check_existing_loop_spec CONFIG_DIR opts formula None w w1 c
              Hi Hcc Hn fc Hf package pkg_files w [] (or_introl (same_fs_refl w)))
    as (wa & na & Ha & _).
  destruct (check_existing_loop_spec CONFIG_DIR opts formula (Some c) w1 w1 c
              eq_refl Hcc Hn fc Hf package pkg_files w1 [] (or_introl (same_fs_refl w1)))
    as (wb & nb & Hb & _).
  unfold check_existing. rewrite Ha, Hb. reflexivity.
Qed.

(** X13: the scan and the installer agree on where a member goes.  For a
    member that is not a directory and not the package, [check_existing]
    reports exactly the base returned by [install_file] joined with the
    name [install_file] gives the member, when that path exists; it reports
    nothing when the path does not exist or [install_file] returns False. *)
Theorem install_file_agrees_with_check_existing
    package formula_tar m formula conn w w1 c fc :
  conn_or_init opts conn w = (w1, inr c) ->
  conn_complete c ->
  is_Some (formula !! "name") ->
  force opts = Some fc ->
  isdir m = false ->
  name m <> package ->
  snd (check_existing CONFIG_DIR opts package [m] formula conn w)
  = inr (match snd (install_file CONFIG_DIR opts package formula_tar m formula conn w) with
         | inr (InstalledTo base_path, m') =>
             if exists_in w1 (base_path +:+ "/" +:+ name m')
             then [base_path +:+ "/" +:+ name m'] else []
         | _ => []
         end).
Proof.
  intros Hc Hcc Hn Hf Hd Hne.
  destruct (check_existing_loop_spec CONFIG_DIR opts formula conn w w1 c
              Hc Hcc Hn fc Hf package [m] w [] (or_introl (same_fs_refl w)))
    as (wa & na & Ha & _).
  unfold check_existing. rewrite Ha. cbn [snd app omap list_omap].
  destruct (scan_step CONFIG_DIR opts formula conn w w1 c Hc (name m) w
              (or_introl (same_fs_refl w)))
    as (wk2 & log_mp & Hmp & _).
  destruct (mapping_returns CONFIG_DIR opts formula c Hcc Hn (name m))
    as (base_path & file_path & Hmap).
  unfold install_file. rewrite (eqb_false _ _ Hne).
  rewrite Hmap in Hmp. rewrite (bind_ok _ _ _ _ _ Hmp).
  unfold conflict, resolved_path. rewrite Hd, Hmap.
  destruct (negb (Py.truthy base_path) || negb (Py.truthy file_path)) eqn:Ht.
  - cbn [snd]. unfold mbind, M_bind, log, mret, M_ret. cbn [snd].
    destruct base_path as [[|? ?]|], file_path as [[|? ?]|]; cbn in Ht |- *;
      try discriminate; reflexivity.
  - destruct (truthy_split _ _ Ht) as (b & f & -> & -> & Hb & Hfn).
    rewrite Hb, Hfn. unfold mbind, M_bind, log, tar_extract, mret, M_ret. cbn.
    destruct (exists_in w1 (b +:+ "/" +:+ f)); reflexivity.
Qed.

End ScanProps.

Section ForceUnset.

Variable CONFIG_DIR : string.
Variable opts : Opts.
Variables (formula : gmap string string) (conn : option (gmap string string)).
Variables (w w1 : World) (c : gmap string string).
Hypothesis Hconn : conn_or_init opts conn w = (w1, inr c).
Hypothesis Hcomplete : conn_complete c.
Hypothesis Hname : is_Some (formula !! "name").
Hypothesis Hforce : force opts = None.

Lemma check_existing_loop_force_unset package pkg_files : forall wk acc,
  same_fs wk w \/ same_fs wk w1 ->
  snd (check_existing_loop CONFIG_DIR opts package pkg_files formula conn acc wk)
  = match omap (conflict CONFIG_DIR opts c formula w1) pkg_files with
    | [] => inr acc
    | _ :: _ => inl (KeyError "force")
    end.
Proof.
  induction pkg_files as [|m rest IH]; intros wk acc Hk; [reflexivity|].
  cbn [check_existing_loop omap list_omap]. unfold conflict at 1.
  destruct (isdir m) eqn:Hdir; [apply IH; exact Hk|].
  unfold mbind at 1, M_bind at 1, log at 1.
  destruct (scan_step CONFIG_DIR opts formula conn w w1 c Hconn (name m)
              (emit DEBUG ("Checking if " +:+ package +:+ ":" +:+ name m
                           +:+ " is already installed ...") wk))
    as (wk2 & log_mp & Hmp & Hs2 & _).
  { destruct Hk as [Hk|Hk]; [left|right];
      (eapply same_fs_trans; [apply same_fs_emit | exact Hk]). }
  destruct (mapping_returns CONFIG_DIR opts formula c Hcomplete Hname (name m))
    as (base_path & file_path & Hmap).
  rewrite Hmap in Hmp. rewrite (bind_ok _ _ _ _ _ Hmp).
  destruct (negb (Py.truthy base_path) || negb (Py.truthy file_path)) eqn:Ht.
  - rewrite (falsy_unresolved _ _ _ _ _ _ _ Hmap Ht).
    unfold mbind at 1, M_bind at 1, log at 1.
    apply IH. right. eapply same_fs_trans; [apply same_fs_emit | exact Hs2].
  - destruct (truthy_split _ _ Ht) as (b & f & -> & -> & Hb & Hfn).
    unfold resolved_path. rewrite Hmap, Hb, Hfn. cbn [andb].
    change (Py.join2 os_path_sep (Py.str (Some b)) (Py.str (Some f)))
      with (b +:+ "/" +:+ f).
    unfold mbind at 1, M_bind at 1, os_path_exists at 1.
    assert (nodes wk2 = nodes w1) as -> by apply Hs2.
    unfold exists_in.
    destruct (nodes w1 !! (b +:+ "/" +:+ f)) as [nd|].
    + rewrite Hforce. reflexivity.
    + apply IH. right. exact Hs2.
Qed.

(** X14: [force] is read only when a conflict is found.  With no [force]
    entry in the options, [check_existing] returns the empty list when no
    member conflicts, and raises [KeyError] for [force] as soon as one
    does. *)
Theorem check_existing_force_unset package pkg_files :
  (omap (conflict CONFIG_DIR opts c formula w1) pkg_files = [] ->
   snd (check_existing CONFIG_DIR opts package pkg_files formula conn w) = inr [])
  /\ (omap (conflict CONFIG_DIR opts c formula w1) pkg_files <> [] ->
      snd (check_existing CONFIG_DIR opts package pkg_files formula conn w)
      = inl (KeyError "force")).
Proof.
  unfold check_existing.
  rewrite (check_existing_loop_force_unset package pkg_files w []
             (or_introl (same_fs_refl w))).
  destruct (omap _ pkg_files); split; congruence.
Qed.

End ForceUnset.

Section InstallMissingKey.

Variable CONFIG_DIR : string.
Variable opts : Opts.

(** X15: with a connection that has no [spm_module_path], installing a
    module file raises [KeyError] when the node role is master or minion;
    with any other role the lookup is never reached and the member is
    refused as usual. *)
Theorem install_file_missing_module_path
    package formula_tar rest isd formula conn w w1 c fdir :
  conn_or_init opts conn w = (w1, inr c) ->
  c !! "formula_path" = Some fdir ->
  c !! "spm_module_path" = None ->
  Py.startswith ("_" +:+ rest) "_pillar/" = false ->
  expected_prefix formula None +:+ "_" +:+ rest <> package ->
  (settings opts !! "spm_node_type" = Some "master"
   \/ settings opts !! "spm_node_type" = Some "minion" ->
   install_file CONFIG_DIR opts package formula_tar
     (mkMember (expected_prefix formula None +:+ "_" +:+ rest) isd) formula conn w
   = (w1, inl (KeyError "spm_module_path")))
  /\ (settings opts !! "spm_node_type" <> Some "master" ->
      settings opts !! "spm_node_type" <> Some "minion" ->
      snd (install_file CONFIG_DIR opts package formula_tar
             (mkMember (expected_prefix formula None +:+ "_" +:+ rest) isd)
             formula conn w)
      = inr (NotInstalled,
             mkMember (expected_prefix formula None +:+ "_" +:+ rest) isd)).
Proof.
  intros Hc Hf Hm Hnp Hne. unfold install_file. cbn [name].
  rewrite (eqb_false _ _ Hne). split.
  - intros Hrole.
    assert (map_path CONFIG_DIR opts (expected_prefix formula None +:+ "_" +:+ rest)
              formula None conn w = (w1, inl (KeyError "spm_module_path"))) as Hmp.
    { unfold map_path. rewrite (bind_ok _ _ _ _ _ Hc).
      rewrite startswith_app, replace_first_app. cbn [negb].
      rewrite (bind_ok _ _ _ _ _ (getitem_ok _ _ _ _ Hf)).
      change (String.eqb ("_" +:+ rest) "FORMULA") with false.
      rewrite Hnp. change (Py.startswith ("_" +:+ rest) "_") with true. cbv iota.
      destruct Hrole as [-> | ->]; cbn;
        apply bind_raise, getitem_raise, Hm. }
    apply (bind_raise _ _ _ _ _ Hmp).
  - intros Hma Hmi.
    rewrite (bind_ok _ _ _ _ _
               (map_path_underscore_unknown_role CONFIG_DIR opts rest formula None conn
                  w w1 c fdir Hc Hf Hnp Hma Hmi)).
    reflexivity.
Qed.

End InstallMissingKey.

(** What [os.remove] leaves. *)
Lemma os_remove_frame path w w' r :
  os_remove path w = (w', r) ->
  (forall q, q <> path -> nodes w' !! q = nodes w !! q)
  /\ faults w' = faults w /\ logged w' = logged w /\ extracted w' = extracted w.
Proof.
  unfold os_remove. intros H. repeat case_match; simplify_eq; repeat split; auto.
  intros q Hq. cbn. apply lookup_delete_ne. congruence.
Qed.

(** The outcome of [remove_file] with a connection, from that of [os.remove]. *)
Lemma remove_file_run opts path c w :
  remove_file opts path (Some c) w
  = match os_remove path (emit DEBUG ("Removing package file " +:+ path) w) with
    | (w', inl (OSError err)) =>
        if negb (is_ENOENT err) then (w', inl (OSError err)) else (w', inr tt)
    | r => r
    end.
Proof.
  unfold remove_file. cbn [conn_or_init].
  unfold mbind, M_bind, mret at 1, M_ret at 1, log at 1, try_except_OSError.
  destruct (os_remove path _) as [w' [[k|err]|[]]]; try reflexivity.
  destruct (negb (is_ENOENT err)); reflexivity.
Qed.

Section RemoveProps.

Variable opts : Opts.

(** X16: given a connection, [remove_file] touches the path it is given
    and nothing else: whatever the outcome, every other path is as it was,
    and the log has gained the one debug record. *)
Theorem remove_file_frame path c w w' r :
  remove_file opts path (Some c) w = (w', r) ->
  (forall q, q <> path -> nodes w' !! q = nodes w !! q)
  /\ faults w' = faults w
  /\ extracted w' = extracted w
  /\ logged w' = (logged w ++ [(DEBUG, "Removing package file " +:+ path)])%list.
Proof.
  rewrite remove_file_run.
  destruct (os_remove path _) as [w2 r2] eqn:Hr.
  apply os_remove_frame in Hr as (Hn & Hf & Hl & He). cbn in Hn, Hf, Hl, He.
  intros H.
  assert (w' = w2) as ->.
  { destruct r2 as [[k|err]|[]]; try (injection H as <- _; reflexivity).
    destruct (negb (is_ENOENT err)); injection H as <- _; reflexivity. }
  auto.
Qed.

(** X17: after a call of [remove_file] that returned, a second call on the
    same path returns too, and changes nothing but the log. *)
Theorem remove_file_again path c w w1 :
  remove_file opts path (Some c) w = (w1, inr tt) ->
  remove_file opts path (Some c) w1
  = (emit DEBUG ("Removing package file " +:+ path) w1, inr tt).
Proof.
  rewrite !remove_file_run. unfold os_remove. cbn [faults emit nodes].
  intros H.
  destruct (faults w !! path) as [err|] eqn:Hf.
  - destruct (negb (is_ENOENT err)) eqn:He; [discriminate|].
    injection H as <-. cbn [faults emit nodes]. rewrite Hf, He. reflexivity.
  - destruct (nodes w !! path) as [[data|]|] eqn:Hn.
    + injection H as <-. cbn. rewrite Hf, lookup_delete_eq. reflexivity.
    + discriminate.
    + cbn in H. injection H as <-. cbn. rewrite Hf, Hn. reflexivity.
Qed.

End RemoveProps.

Section HashProps.

Variable hashobj_t : Type.
Variable update : hashobj_t -> list Byte.byte -> exn + hashobj_t.
Variable hexdigest : hashobj_t -> string.

(** X18: [hash_file] only reads, and reads one path only.  Whatever it
    returns or raises, the world is as it found it: [conn] is not used, so
    no connection is set up and no directory created when it is None; and
    the outcome is the same in every world that agrees on the path. *)
Theorem hash_file_read_only path hashobj conn conn2 w w2 :
  nodes w2 !! path = nodes w !! path ->
  faults w2 !! path = faults w !! path ->
  fst (hash_file hashobj_t update hexdigest path hashobj conn w) = w
  /\ snd (hash_file hashobj_t update hexdigest path hashobj conn2 w2)
     = snd (hash_file hashobj_t update hexdigest path hashobj conn w).
Proof.
  intros Hn Hf.
  unfold hash_file, try_except_OSError, mbind, M_bind, os_path_isdir, read_file,
    hashobj_update, mret, M_ret, raise.
  rewrite Hn.
  destruct (nodes w !! path) as [[data|]|] eqn:En; cbn beta iota;
    rewrite ?Hf, ?Hn, ?En;
    [ destruct (faults w !! path) as [e|]; cbn beta iota;
      [ destruct (is_ENOENT e)
      | destruct (update hashobj data) as [[k|e]|h]; cbn beta iota;
        [ | destruct (is_ENOENT e) | ] ]
    |
    | destruct (faults w !! path) as [e|]; cbn beta iota;
      [ destruct (is_ENOENT e) | ] ];
    split; reflexivity.
Qed.

(** X19: the hash object is fed, not reset: hashing a second file with the
    object returned for a first one gives the digest of the object fed
    with both contents in turn. *)
Theorem hash_file_accumulates path1 path2 hashobj h1 h2 conn w data1 data2 :
  faults w !! path1 = None -> nodes w !! path1 = Some (File data1) ->
  faults w !! path2 = None -> nodes w !! path2 = Some (File data2) ->
  update hashobj data1 = inr h1 ->
  update h1 data2 = inr h2 ->
  (hash_file hashobj_t update hexdigest path1 hashobj conn
     ≫= λ first, hash_file hashobj_t update hexdigest path2 (snd first) conn) w
  = (w, inr (hexdigest h2, h2)).
Proof.
  intros Hf1 Hn1 Hf2 Hn2 Hu1 Hu2.
  rewrite (bind_ok _ _ _ _ _ (hash_file_content _ _ _ _ _ _ _ _ _ Hf1 Hn1 Hu1)).
  cbn [snd]. apply (hash_file_content _ _ _ _ _ _ _ _ _ Hf2 Hn2 Hu2).
Qed.

(** X20: the [try] of [hash_file] covers the hash object too: an [OSError]
    with errno ENOENT raised by [update] is turned into the empty string
    like a missing file, an [OSError] with another errno is raised again,
    and an exception that is not an [OSError] passes through. *)
Theorem hash_file_update_raises path hashobj conn w data :
  faults w !! path = None ->
  nodes w !! path = Some (File data) ->
  (forall err, update hashobj data = inl (OSError err) ->
               errno err = Some ENOENT ->
               exists h, hash_file hashobj_t update hexdigest path hashobj conn w
                         = (w, inr (EmptyString, h)))
  /\ (forall err, update hashobj data = inl (OSError err) ->
                  errno err <> Some ENOENT ->
                  hash_file hashobj_t update hexdigest path hashobj conn w
                  = (w, inl (OSError err)))
  /\ (forall key, update hashobj data = inl (KeyError key) ->
                  hash_file hashobj_t update hexdigest path hashobj conn w
                  = (w, inl (KeyError key))).
Proof.
  intros Hf Hn.
  assert (nodes w !! path <> Some Dir) as Hnd by congruence.
  split; [|split].
  - intros err Hu He. rewrite hash_file_not_dir by assumption.
    unfold try_except_OSError, mbind, M_bind, read_file, hashobj_update.
    rewrite Hf, Hn, Hu. unfold is_ENOENT. rewrite He. eexists. reflexivity.
  - intros err Hu He. rewrite hash_file_not_dir by assumption.
    unfold try_except_OSError, mbind, M_bind, read_file, hashobj_update.
    rewrite Hf, Hn, Hu. unfold is_ENOENT.
    destruct (errno err) as [e|]; [|reflexivity].
    destruct (Z.eqb_spec ENOENT e); [congruence | reflexivity].
  - intros key Hu. rewrite hash_file_not_dir by assumption.
    unfold try_except_OSError, mbind, M_bind, read_file, hashobj_update.
    rewrite Hf, Hn, Hu. reflexivity.
Qed.

(** X21: a file removed by [remove_file] hashes to the empty string, and
    the hash object is not fed. *)
Theorem remove_then_hash opts path c hashobj conn w data :
  faults w !! path = None ->
  nodes w !! path = Some (File data) ->
  (remove_file opts path (Some c)
     ≫= λ _, hash_file hashobj_t update hexdigest path hashobj conn) w
  = (set_nodes (delete path) (emit DEBUG ("Removing package file " +:+ path) w),
     inr (EmptyString, hashobj)).
Proof.
  intros Hf Hn.
  assert (remove_file opts path (Some c) w
          = (set_nodes (delete path)
               (emit DEBUG ("Removing package file " +:+ path) w), inr tt)) as Hr.
  { rewrite remove_file_run. unfold os_remove. cbn [faults nodes emit].
    rewrite Hf, Hn. reflexivity. }
  rewrite (bind_ok _ _ _ _ _ Hr).
  unfold hash_file, try_except_OSError, mbind, M_bind, os_path_isdir, read_file.
  cbn [nodes faults set_nodes emit]. rewrite lookup_delete_eq.
  cbn [nodes faults set_nodes emit]. rewrite Hf, lookup_delete_eq. reflexivity.
Qed.

End HashProps.

(** ** Properties of the refresh tag *)

Section RefreshTagProps.

Variable opts : Opts.
Variable oserror_str : oserror -> string.
Variable is_true : option bool -> bool.

Lemma refresh_tag_ok cachedir w :
  settings opts !! "cachedir" = Some cachedir ->
  _refresh_tag opts w = (w, inr (refresh_tag_path cachedir)).
Proof.
  intros H. unfold _refresh_tag.
  rewrite (bind_ok _ _ _ _ _ (getitem_ok _ _ _ _ H)). reflexivity.
Qed.

Lemma clear_refresh_tag_run cachedir w :
  settings opts !! "cachedir" = Some cachedir ->
  _clear_refresh_tag opts oserror_str w
  = match os_remove (refresh_tag_path cachedir) w with
    | (w', inl (OSError err)) =>
        if negb (is_ENOENT err)
        then (emit WARNING ("Encountered error removing refresh_tag: "
                            +:+ oserror_str err) w', inr tt)
        else (w', inr tt)
    | r => r
    end.
Proof.
  intros H. unfold _clear_refresh_tag, try_except_OSError.
  rewrite (bind_ok _ _ _ _ _ (refresh_tag_ok _ _ H)).
  destruct (os_remove _ w) as [w' [[k|err]|[]]]; try reflexivity.
  destruct (negb (is_ENOENT err)); reflexivity.
Qed.

(** X22: [_clear_refresh_tag] never raises an [OSError].  With no
    [cachedir] setting it raises [KeyError]; otherwise it returns, no path
    but the tag is changed, a tag that can be removed is gone and nothing
    is logged, and a failure of [os.remove] other than ENOENT is logged as
    a warning. *)
Theorem clear_refresh_tag_swallows_oserror w :
  (settings opts !! "cachedir" = None ->
   _clear_refresh_tag opts oserror_str w = (w, inl (KeyError "cachedir")))
  /\ (forall cachedir,
      settings opts !! "cachedir" = Some cachedir ->
      exists w',
        _clear_refresh_tag opts oserror_str w = (w', inr tt)
        /\ faults w' = faults w /\ extracted w' = extracted w
        /\ (forall q, q <> refresh_tag_path cachedir -> nodes w' !! q = nodes w !! q)
        /\ (faults w !! refresh_tag_path cachedir = None ->
            nodes w !! refresh_tag_path cachedir <> Some Dir ->
            nodes w' !! refresh_tag_path cachedir = None /\ logged w' = logged w)
        /\ (forall err,
            os_remove (refresh_tag_path cachedir) w = (w, inl (OSError err)) ->
            errno err <> Some ENOENT ->
            w' = emit WARNING ("Encountered error removing refresh_tag: "
                               +:+ oserror_str err) w)).
Proof.
  split.
  - intros H. unfold _clear_refresh_tag, try_except_OSError, _refresh_tag.
    rewrite (bind_raise _ _ _ _ _
               (bind_raise _ _ _ _ _ (getitem_raise _ _ w H))). reflexivity.
  - intros cachedir H. rewrite (clear_refresh_tag_run _ _ H).
    set (tag := refresh_tag_path cachedir).
    destruct (os_remove tag w) as [w2 r2] eqn:Hr.
    pose proof (os_remove_frame _ _ _ _ Hr) as (Hn & Hf & Hl & He).
    unfold os_remove in Hr.
    destruct (faults w !! tag) as [e|] eqn:Hfl.
    + injection Hr as <- <-.
      destruct (negb (is_ENOENT e)) eqn:Hen; eexists; (split; [reflexivity|]);
        (split; [reflexivity|]); (split; [reflexivity|]); (split; [exact Hn|]);
        (split; [discriminate|]); intros err Herr Hno; injection Herr as <-.
      * reflexivity.
      * exfalso. unfold is_ENOENT in Hen. destruct (errno e) as [z|]; [|discriminate].
        destruct (Z.eqb_spec ENOENT z); [|discriminate]. congruence.
    + destruct (nodes w !! tag) as [[data|]|] eqn:Hnd; injection Hr as <- <-;
        cbn [negb is_ENOENT errno Z.eqb ENOENT EISDIR Pos.eqb];
        eexists; (split; [reflexivity|]);
        (split; [reflexivity|]); (split; [reflexivity|]); (split; [exact Hn|]).
      * split; [intros _ _; split; [apply lookup_delete_eq | reflexivity]|].
        intros err Herr. discriminate Herr.
      * split; [intros _ Hd; congruence|].
        intros err Herr _. injection Herr as <-. reflexivity.
      * split; [intros _ _; split; [exact Hnd | reflexivity]|].
        intros err Herr Hno. injection Herr as <-. cbn in Hno. congruence.
Qed.




(** X24: [mod_init] returns True or False, or raises [KeyError] for a
    missing [fun] or [cachedir]; it never raises an [OSError], and when it
    does not return True the world is as it was. *)
Theorem mod_init_never_raises_oserror low w w' r :
  mod_init opts oserror_str low w = (w', r) ->
  r = inr true
  \/ (r = inr false /\ w' = w)
  \/ (r = inl (KeyError "fun") /\ low !! "fun" = None /\ w' = w)
  \/ (r = inl (KeyError "cachedir") /\ settings opts !! "cachedir" = None /\ w' = w).
Proof.
  unfold mod_init, _write_refresh_tag, _refresh_tag, try_except_OSError, open_truncate,
    os_path_exists, getitem, raise, log, mbind, M_bind, mret, M_ret.
  intros H. repeat case_match; simplify_eq; auto 10.
Qed.

(** X25: after [_clear_refresh_tag] has removed the tag, [_check_refresh]
    answers what [is_true] says of [refresh]: nothing is left of an
    earlier [mod_init]. *)
Theorem clear_refresh_tag_then_check cachedir refresh w :
  settings opts !! "cachedir" = Some cachedir ->
  faults w !! refresh_tag_path cachedir = None ->
  nodes w !! refresh_tag_path cachedir <> Some Dir ->
  exists w',
    (_clear_refresh_tag opts oserror_str
       ≫= λ _, _check_refresh opts is_true refresh) w
    = (w', inr (is_true refresh))
    /\ nodes w' !! refresh_tag_path cachedir = None.
Proof.
  intros H Hfl Hnd.
  assert (exists w', _clear_refresh_tag opts oserror_str w = (w', inr tt)
                     /\ nodes w' !! refresh_tag_path cachedir = None)
    as (w' & Hclear & Hgone).
  { rewrite (clear_refresh_tag_run _ _ H). unfold os_remove. rewrite Hfl.
    destruct (nodes w !! refresh_tag_path cachedir) as [[data|]|] eqn:Hn.
    - eexists. split; [reflexivity|]. cbn. apply lookup_delete_eq.
    - congruence.
    - cbn. eexists. split; [reflexivity|]. exact Hn. }
  exists w'. split; [|exact Hgone].
  rewrite (bind_ok _ _ _ _ _ Hclear). unfold _check_refresh.
  destruct (is_true refresh); [reflexivity|].
  rewrite (bind_ok _ _ _ _ _ (refresh_tag_ok _ _ H)).
  unfold mbind, M_bind, os_path_isfile, mret, M_ret. rewrite Hgone. reflexivity.
Qed.

End RefreshTagProps.

(** ** Worked instances of the further properties *)


(** With the node role as only setting, the formula directory is the
    first one missed. *)
Lemma init_missing_setting_witness :
  init opts_master world_installed = (world_installed, inl (KeyError "formula_path")).
Proof.
  exact (proj1 (init_missing_setting opts_master world_installed) eq_refl).
Defined.

(** Creating [/f] is refused. *)
Lemma init_failure_witness :
  (exists k, OSError (OSErr (Some EACCES) "Permission denied") = KeyError k
             /\ settings opts_dirs !! k = None /\ world_refused = world_refused
             /\ k ∈ ["formula_path"; "pillar_path"; "reactor_path"; "spm_module_path"])
  \/ (exists k d err,
        OSError (OSErr (Some EACCES) "Permission denied") = OSError err
        /\ settings opts_dirs !! k = Some d
        /\ k ∈ ["formula_path"; "pillar_path"; "reactor_path"; "spm_module_path"]
        /\ faults world_refused !! d = Some err /\ nodes world_refused !! d = None).
Proof.
  exact (init_failure opts_dirs world_refused world_refused
           (OSError (OSErr (Some EACCES) "Permission denied")) eq_refl).
Defined.

(** A module file with no node role: the error record is the only change. *)
Lemma map_path_explicit_conn_frame_witness :
  nodes (emit ERROR node_type_not_set world_installed) = nodes world_installed
  /\ forall w2,
      snd (map_path etc_salt opts_no_role "apache/_x" apache None (Some sample_conn) w2)
      = inr (None, None).
Proof.
  destruct (map_path_explicit_conn_frame etc_salt opts_no_role "apache/_x" apache None
              sample_conn world_installed
              (emit ERROR node_type_not_set world_installed) (inr (None, None)) eq_refl)
    as (Hn & _ & _ & _ & Hany).
  split; [exact Hn | exact Hany].
Defined.

(** The manifest, with a connection that has the pillar directory only. *)
Lemma map_path_missing_formula_path_witness :
  map_path etc_salt opts_master "apache/FORMULA" apache None (Some conn_pillar_only) blank
  = (blank, inl (KeyError "formula_path")).
Proof.
  exact (map_path_missing_formula_path etc_salt opts_master "FORMULA" apache None
           (Some conn_pillar_only) blank blank conn_pillar_only eq_refl eq_refl).
Defined.

(** A formula that has a top-level directory and no name. *)
Lemma map_path_nameless_formula_witness :
  map_path etc_salt opts_master "apache/README" nameless None (Some sample_conn) blank
  = (blank, inl (KeyError "name")).
Proof.
  assert ("README" <> "FORMULA") as N by discriminate.
  assert ("README" = "pillar.example" -> is_Some (sample_conn !! "pillar_path")) as P
      by discriminate.
  exact (map_path_nameless_formula etc_salt opts_master "README" nameless None
           (Some sample_conn) blank blank sample_conn "/f" eq_refl eq_refl eq_refl
           N eq_refl P).
Defined.

(** A pillar file behind three slashes. *)
Lemma map_path_provenance_witness :
  ("/p" = etc_salt
   \/ exists k, k ∈ ["formula_path"; "pillar_path"; "reactor_path"; "spm_module_path"]
                /\ sample_conn !! k = Some "/p")
  /\ (tail_of "x.sls" "apache/_pillar///x.sls"
      \/ exists nm, apache !! "name" = Some nm /\ "x.sls" = nm +:+ ".sls.orig").
Proof.
  exact (map_path_provenance etc_salt opts_master "apache/_pillar///x.sls" apache None
           (Some sample_conn) blank blank sample_conn blank "/p" "x.sls"
           eq_refl eq_refl).
Defined.

(** The directory entry [apache] of the formula [apache]. *)
Lemma map_path_top_level_entry_witness :
  map_path etc_salt opts_master "apache" apache None (Some sample_conn) blank
  = (blank, inr (None, None)).
Proof.
  exact (map_path_top_level_entry etc_salt opts_master apache (Some sample_conn)
           blank blank sample_conn eq_refl).
Defined.

(** A directory only, no connection, and options [init] could not use. *)
Lemma check_existing_only_directories_witness :
  check_existing etc_salt opts_no_role "apache" [member_dir] apache None world_installed
  = (world_installed, inr []).
Proof.
  apply check_existing_only_directories.
  constructor; [reflexivity | constructor].
Defined.

(** Two archives of the formula, scanned apart and together. *)
Lemma check_existing_app_witness :
  exists r1 r2,
    snd (check_existing etc_salt opts_master "apache" [member_readme] apache
           (Some sample_conn) world_installed) = inr r1
    /\ snd (check_existing etc_salt opts_master "apache" [member_manifest; member_readme]
              apache (Some sample_conn) world_installed) = inr r2
    /\ snd (check_existing etc_salt opts_master "apache"
              ([member_readme] ++ [member_manifest; member_readme]) apache
              (Some sample_conn) world_installed) = inr (r1 ++ r2)%list.
Proof.
  exact (check_existing_app etc_salt opts_master "apache" [member_readme]
           [member_manifest; member_readme] apache (Some sample_conn)
           world_installed world_installed sample_conn false
           eq_refl sample_conn_complete apache_named eq_refl).
Defined.

(** The scan with no connection and with the connection of [init]. *)
Lemma check_existing_conn_optional_witness :
  snd (check_existing etc_salt opts_dirs "apache" [member_readme; member_manifest] apache
         None world_installed)
  = snd (check_existing etc_salt opts_dirs "apache" [member_readme; member_manifest] apache
           (Some sample_conn) (fst (init opts_dirs world_installed))).
Proof.
  exact (check_existing_conn_optional etc_salt opts_dirs "apache"
           [member_readme; member_manifest] apache world_installed
           (fst (init opts_dirs world_installed)) sample_conn false
           eq_refl apache_named eq_refl).
Defined.

(** [apache/README] is installed to [/f] as [README], and [/f/README] is
    what the scan reports. *)
Lemma install_file_agrees_with_check_existing_witness :
  snd (check_existing etc_salt opts_master "apache.spm" [member_readme] apache
         (Some sample_conn) world_installed)
  = inr ["/f/README"].
Proof.
  assert (name member_readme <> "apache.spm") as Hne by discriminate.
  exact (install_file_agrees_with_check_existing etc_salt opts_master "apache.spm"
           "apache.tar" member_readme apache (Some sample_conn) world_installed
           world_installed sample_conn false
           eq_refl sample_conn_complete apache_named eq_refl eq_refl Hne).
Defined.

(** With no [force] entry: a scan with no conflict, and one with a
    conflict. *)
Lemma check_existing_force_unset_witness :
  snd (check_existing etc_salt opts_no_force "apache" [member_dir; member_manifest] apache
         (Some sample_conn) world_installed) = inr []
  /\ snd (check_existing etc_salt opts_no_force "apache" [member_readme] apache
            (Some sample_conn) world_installed) = inl (KeyError "force").
Proof.
  split.
  - apply (check_existing_force_unset etc_salt opts_no_force apache (Some sample_conn)
             world_installed world_installed sample_conn
             eq_refl sample_conn_complete apache_named eq_refl "apache"
             [member_dir; member_manifest]).
    reflexivity.
  - apply (check_existing_force_unset etc_salt opts_no_force apache (Some sample_conn)
             world_installed world_installed sample_conn
             eq_refl sample_conn_complete apache_named eq_refl "apache"
             [member_readme]).
    discriminate.
Defined.

(** The call of [test_install_file]: a module file, the role master, and a
    connection with the formula directory only. *)
Lemma install_file_missing_module_path_witness :
  install_file etc_salt opts_master "apache" "apache.spm" member_module apache
    (Some conn_formula_only) blank
  = (blank, inl (KeyError "spm_module_path"))
  /\ snd (install_file etc_salt opts_no_role "apache" "apache.spm" member_module apache
            (Some conn_formula_only) blank)
     = inr (NotInstalled, member_module).
Proof.
  assert (expected_prefix apache None +:+ "_" +:+ "README" <> "apache") as Hne
      by discriminate.
  split.
  - apply (install_file_missing_module_path etc_salt opts_master "apache" "apache.spm"
             "README" false apache (Some conn_formula_only) blank blank
             conn_formula_only "/tmp/test" eq_refl eq_refl eq_refl eq_refl Hne).
    left. reflexivity.
  - apply (install_file_missing_module_path etc_salt opts_no_role "apache" "apache.spm"
             "README" false apache (Some conn_formula_only) blank blank
             conn_formula_only "/tmp/test" eq_refl eq_refl eq_refl eq_refl Hne);
      intros H; vm_compute in H; discriminate H.
Defined.

(** Removing [/tmp/file1] leaves [/f/README] alone. *)
Lemma remove_file_frame_witness :
  nodes (fst (remove_file opts_master "/tmp/file1" (Some sample_conn) world_installed))
    !! "/f/README"
  = nodes world_installed !! "/f/README".
Proof.
  assert ("/f/README" <> "/tmp/file1") as Hne by discriminate.
  exact (proj1 (remove_file_frame opts_master "/tmp/file1" sample_conn world_installed
                  _ _ (surjective_pairing _)) "/f/README" Hne).
Defined.

(** Removing [/tmp/file1] a second time. *)
Lemma remove_file_again_witness :
  remove_file opts_master "/tmp/file1" (Some sample_conn)
    (set_nodes (delete "/tmp/file1")
       (emit DEBUG "Removing package file /tmp/file1" world_installed))
  = (emit DEBUG "Removing package file /tmp/file1"
       (set_nodes (delete "/tmp/file1")
          (emit DEBUG "Removing package file /tmp/file1" world_installed)), inr tt).
Proof.
  exact (remove_file_again opts_master "/tmp/file1" sample_conn world_installed _ eq_refl).
Defined.

(** The four bytes of [/tmp/file1], hashed twice with one hash object. *)
Lemma hash_file_accumulates_witness :
  (hash_file nat count_update count_hexdigest "/tmp/file1" 0%nat None
     ≫= λ first, hash_file nat count_update count_hexdigest "/tmp/file1" (snd first) None)
    world_installed
  = (world_installed, inr ("11111111", 8%nat)).
Proof.
  exact (hash_file_accumulates nat count_update count_hexdigest "/tmp/file1" "/tmp/file1"
           0%nat 4%nat 8%nat None world_installed
           (list_byte_of_string "text") (list_byte_of_string "text")
           eq_refl eq_refl eq_refl eq_refl eq_refl eq_refl).
Defined.

(** Hashing [/tmp/file1] with no connection, and with one in a world where
    the log and [/f/README] differ. *)
Lemma hash_file_read_only_witness :
  fst (hash_file nat count_update count_hexdigest "/tmp/file1" 0%nat None world_installed)
  = world_installed
  /\ snd (hash_file nat count_update count_hexdigest "/tmp/file1" 0%nat (Some sample_conn)
            (set_nodes (delete "/f/README") (emit DEBUG "x" world_installed)))
     = snd (hash_file nat count_update count_hexdigest "/tmp/file1" 0%nat None
              world_installed).
Proof.
  assert (nodes (set_nodes (delete "/f/README") (emit DEBUG "x" world_installed))
            !! "/tmp/file1" = nodes world_installed !! "/tmp/file1") as Hn
      by (vm_compute; reflexivity).
  assert (faults (set_nodes (delete "/f/README") (emit DEBUG "x" world_installed))
            !! "/tmp/file1" = faults world_installed !! "/tmp/file1") as Hf
      by reflexivity.
  exact (hash_file_read_only nat count_update count_hexdigest "/tmp/file1" 0%nat None
           (Some sample_conn) world_installed
           (set_nodes (delete "/f/README") (emit DEBUG "x" world_installed)) Hn Hf).
Defined.

(** A hash object whose [update] reports a missing file. *)
Lemma hash_file_update_raises_witness :
  exists h,
    hash_file nat enoent_update count_hexdigest "/tmp/file1" 0%nat None world_installed
    = (world_installed, inr (EmptyString, h)).
Proof.
  exact (proj1 (hash_file_update_raises nat enoent_update count_hexdigest "/tmp/file1"
                  0%nat None world_installed (list_byte_of_string "text")
                  eq_refl eq_refl)
           (OSErr (Some ENOENT) "No such file or directory") eq_refl eq_refl).
Defined.

(** [/tmp/file1], removed and then hashed. *)
Lemma remove_then_hash_witness :
  (remove_file opts_master "/tmp/file1" (Some sample_conn)
     ≫= λ _, hash_file nat count_update count_hexdigest "/tmp/file1" 0%nat None)
    world_installed
  = (set_nodes (delete "/tmp/file1")
       (emit DEBUG "Removing package file /tmp/file1" world_installed),
     inr (EmptyString, 0%nat)).
Proof.
  exact (remove_then_hash nat count_update count_hexdigest opts_master "/tmp/file1"
           sample_conn 0%nat None world_installed (list_byte_of_string "text")
           eq_refl eq_refl).
Defined.

(** Clearing the tag: with no cache directory configured, and when the
    tag is a file. *)
Lemma clear_refresh_tag_swallows_oserror_witness :
  _clear_refresh_tag opts_master strerror_only world_tagged
  = (world_tagged, inl (KeyError "cachedir"))
  /\ exists w',
      _clear_refresh_tag opts_cache strerror_only world_tagged = (w', inr tt)
      /\ nodes w' !! "/var/cache/salt/spm_refresh" = None
      /\ logged w' = [].
Proof.
  split.
  - exact (proj1 (clear_refresh_tag_swallows_oserror opts_master strerror_only
                    world_tagged) eq_refl).
  - destruct (proj2 (clear_refresh_tag_swallows_oserror opts_cache strerror_only
                       world_tagged) "/var/cache/salt" eq_refl)
      as (w' & Hrun & _ & _ & _ & Hgone & _).
    assert (nodes world_tagged !! refresh_tag_path "/var/cache/salt" <> Some Dir) as Hnd
        by (intros H; vm_compute in H; discriminate H).
    destruct (Hgone eq_refl Hnd) as [Hg Hl].
    exists w'. split; [exact Hrun|]. split; [exact Hg | exact Hl].
Defined.


(** [mod_init] with no [fun] entry. *)
Lemma mod_init_never_raises_oserror_witness :
  inl (KeyError "fun") = inr true
  \/ (inl (KeyError "fun") = inr false /\ blank = blank)
  \/ (@inl exn bool (KeyError "fun") = inl (KeyError "fun")
      /\ (∅ : gmap string string) !! "fun" = None /\ blank = blank)
  \/ (@inl exn bool (KeyError "fun") = inl (KeyError "cachedir")
      /\ settings opts_cache !! "cachedir" = None /\ blank = blank).
Proof.
  exact (mod_init_never_raises_oserror opts_cache strerror_only ∅ blank blank
           (inl (KeyError "fun")) eq_refl).
Defined.

(** The tag cleared, then [_check_refresh] with no [refresh]. *)
Lemma clear_refresh_tag_then_check_witness :
  exists w',
    (_clear_refresh_tag opts_cache strerror_only
       ≫= λ _, _check_refresh opts_cache only_true None) world_tagged
    = (w', inr false)
    /\ nodes w' !! "/var/cache/salt/spm_refresh" = None.
Proof.
  assert (nodes world_tagged !! refresh_tag_path "/var/cache/salt" <> Some Dir) as Hnd
      by (intros H; vm_compute in H; discriminate H).
  exact (clear_refresh_tag_then_check opts_cache strerror_only only_true
           "/var/cache/salt" None world_tagged eq_refl eq_refl Hnd).
Defined.
